(** * CodeGenesis AI: the generation orchestrator and the analysis adapter

    A shallow embedding of the logic of
    - [services/geminiService.ts]  ([generateUnitTestsStream],
      [analyzeCodeWithGemini]),
    - [components/AiUnitTestGenerator.tsx]  ([cleanCodeForDownload],
      [handleGenerate]),
    - [types.ts]  (the enumerations and option records),
    followed by the properties of these functions.

    Modelling conventions.
    - A JavaScript string is its sequence of UTF-16 code units
      ([jsstring], a list of [N]); [js "..."] is an ASCII literal.
    - A JavaScript [number] that the code only stores or passes on is the
      rational it denotes ([Q]); the progress counter, on which the code
      computes [prev + 5] and [Math.min], is integer valued and is a [Z]
      (binary64 arithmetic is exact on the values it takes).
    - An [async] function is modelled by its settled promise ([Promise]);
      an async generator by the fragments it yields and the way it ends.
    - React state is an explicit record ([State]); a call of a state
      setter or of a service is an [Action], and a handler is the list of
      actions it performs, in program order. *)

From Stdlib Require Import String Ascii DecimalString.
From Stdlib Require Import List ZArith NArith QArith Bool Arith Lia.
Import ListNotations.

(* ================================================================== *)
(** ** JavaScript strings                                              *)
(* ================================================================== *)

Definition jsstring := list N.

(** An ASCII literal as a JavaScript string. *)
Definition js (s : string) : jsstring :=
  map N_of_ascii (list_ascii_of_string s).

(** The line feed of a template literal that spans several lines. *)
Definition nl : jsstring := [10%N].

Fixpoint jsstring_eqb (s t : jsstring) : bool :=
  match s, t with
  | [], [] => true
  | c :: s', d :: t' => N.eqb c d && jsstring_eqb s' t'
  | _, _ => false
  end.

(** [startsWith s p] is [s.startsWith(p)]. *)
Fixpoint startsWith (s p : jsstring) : bool :=
  match p, s with
  | [], _ => true
  | _ :: _, [] => false
  | d :: p', c :: s' => N.eqb c d && startsWith s' p'
  end.

(** [includes s t] is [s.includes(t)]: [t] occurs in [s] at some
    position. *)
Fixpoint includes (s t : jsstring) : bool :=
  startsWith s t ||
  match s with
  | [] => false
  | _ :: s' => includes s' t
  end.

(** [endsWith s p] is [s.endsWith(p)]. *)
Definition endsWith (s p : jsstring) : bool :=
  startsWith (rev s) (rev p).

(** Truthiness of [string | undefined]: [undefined] and [''] are falsy.
    [or_default v d] is [v || d]. *)
Definition or_default (v : option jsstring) (d : jsstring) : jsstring :=
  match v with
  | Some (c :: s) => c :: s
  | _ => d
  end.

(* ================================================================== *)
(** ** types.ts                                                        *)
(* ================================================================== *)

Inductive AiModelProvider := GeminiFlash | GeminiPro | GPT4Turbo | Claude3Opus.

Inductive TestFramework :=
  Jest | ReactTestingLibrary | Vitest | Mocha | Cypress | Playwright | Pytest.

Inductive AssertionLibrary := Expect | Chai | Assert.

Inductive TestType := Unit | Integration | E2E | Snapshot | Security.

Inductive CodeLanguage := TypeScript | JavaScript | Python | Java | CSharp.

Inductive GenerationStrategy :=
  CoverageOptimized | Behavioral | Adversarial | Hybrid.

Inductive RiskLevel := Critical | High | Medium | Low | Informational.

(** The string behind each member of a string enum. *)
Definition AiModelProvider_value (p : AiModelProvider) : jsstring :=
  match p with
  | GeminiFlash => js "gemini-flash"
  | GeminiPro => js "gemini-pro"
  | GPT4Turbo => js "gpt-4-turbo"
  | Claude3Opus => js "claude-3-opus"
  end.

Definition TestFramework_value (f : TestFramework) : jsstring :=
  match f with
  | Jest => js "jest"
  | ReactTestingLibrary => js "react-testing-library"
  | Vitest => js "vitest"
  | Mocha => js "mocha"
  | Cypress => js "cypress"
  | Playwright => js "playwright"
  | Pytest => js "pytest"
  end.

Definition AssertionLibrary_value (a : AssertionLibrary) : jsstring :=
  match a with
  | Expect => js "expect"
  | Chai => js "chai"
  | Assert => js "assert"
  end.

Definition CodeLanguage_value (l : CodeLanguage) : jsstring :=
  match l with
  | TypeScript => js "typescript"
  | JavaScript => js "javascript"
  | Python => js "python"
  | Java => js "java"
  | CSharp => js "csharp"
  end.

Definition GenerationStrategy_value (g : GenerationStrategy) : jsstring :=
  match g with
  | CoverageOptimized => js "coverage_optimized"
  | Behavioral => js "behavioral"
  | Adversarial => js "adversarial"
  | Hybrid => js "hybrid"
  end.

Definition RiskLevel_value (r : RiskLevel) : jsstring :=
  match r with
  | Critical => js "critical"
  | High => js "high"
  | Medium => js "medium"
  | Low => js "low"
  | Informational => js "informational"
  end.

Record AiModelConfig := {
  provider : AiModelProvider;
  modelName : jsstring;
  temperature : Q;
  topP : Q;
  maxTokens : Q
}.

Record TestGenerationOptions := {
  targetFramework : TestFramework;
  assertionLibrary : AssertionLibrary;
  codeLanguage : CodeLanguage;
  testTypes : list TestType;
  includeMocks : bool;
  includeStubs : bool;
  generateEdgeCases : bool;
  generateNegativeTests : bool;
  aiModelConfig : AiModelConfig;
  generationStrategy : GenerationStrategy;
  customPromptInstructions : option jsstring
}.

(* ================================================================== *)
(** ** The provider SDK, as far as the code uses it                    *)
(* ================================================================== *)

(** A value thrown by the SDK (a transport or an API error); only its
    message is kept. *)
Record SdkError := { sdk_message : jsstring }.

(** The argument of [ai.models.generateContentStream]. *)
Record StreamRequest := {
  model : jsstring;
  contents_text : jsstring;
  config_temperature : Q;
  config_topP : Q;
  config_maxOutputTokens : Q
}.

(** What the provider does with a streaming request: the chunks that
    arrive, each with its [text] ([string | undefined]), and then either
    the end of the stream or an error.  An error before the first chunk
    (the [await] of the call itself rejects) is [stream_chunks = []]. *)
Record StreamResponse := {
  stream_chunks : list (option jsstring);
  stream_failure : option SdkError
}.

(** How an async generator ends. *)
Inductive Completion :=
| Returned
| Threw (message : jsstring).

(* ================================================================== *)
(** ** geminiService.ts: generateUnitTestsStream                       *)
(* ================================================================== *)

(** [let modelName = ...; if (provider.includes('pro')) ...], on the
    provider's string. *)
Definition resolveModel (providerId : jsstring) : jsstring :=
  if includes providerId (js "pro")
  then js "gemini-3-pro-preview"
  else js "gemini-3-flash-preview".

Definition generateUnitTestsStream_modelName
    (options : TestGenerationOptions) : jsstring :=
  resolveModel (AiModelProvider_value (provider (aiModelConfig options))).

(** The template literal [systemPrompt], line by line. *)
Definition generateUnitTestsStream_systemPrompt
    (options : TestGenerationOptions) : jsstring :=
  js "You are CodeGenesis AI, an expert Senior QA Engineer and Software Architect." ++ nl ++
  js "    Your task is to generate comprehensive, production-ready unit tests." ++ nl ++
  js "    " ++ nl ++
  js "    Constraints:" ++ nl ++
  js "    - Target Framework: " ++ TestFramework_value (targetFramework options) ++ nl ++
  js "    - Assertion Library: " ++ AssertionLibrary_value (assertionLibrary options) ++ nl ++
  js "    - Language: " ++ CodeLanguage_value (codeLanguage options) ++ nl ++
  js "    - Strategy: " ++ GenerationStrategy_value (generationStrategy options) ++ nl ++
  js "    " ++ nl ++
  js "    Requirements:" ++ nl ++
  js "    - " ++ (if includeMocks options
                  then js "Include mocks for external dependencies."
                  else js "Assume real dependencies where safe.") ++ nl ++
  js "    - " ++ (if generateEdgeCases options
                  then js "Cover edge cases and boundary conditions rigorously."
                  else js "Focus on happy paths.") ++ nl ++
  js "    - Follow clean code principles (DRY, SOLID)." ++ nl ++
  js "    - Output ONLY the code for the test file. Do not include markdown formatting or explanations outside the code block if possible, but standard markdown code blocks are acceptable." ++ nl ++
  js "    " ++ nl ++
  js "    Custom Instructions: " ++
     or_default (customPromptInstructions options) (js "None") ++ nl ++
  js "    ".

Definition generateUnitTestsStream_userPrompt (code : jsstring) : jsstring :=
  js "Generate unit tests for the following code:" ++ nl ++ nl ++ code.

(** The text of the single part sent to the model:
    [systemPrompt + "\n\n" + userPrompt]. *)
Definition generateUnitTestsStream_prompt
    (code : jsstring) (options : TestGenerationOptions) : jsstring :=
  generateUnitTestsStream_systemPrompt options ++ (nl ++ nl) ++
  generateUnitTestsStream_userPrompt code.

Definition generateUnitTestsStream_request
    (code : jsstring) (options : TestGenerationOptions) : StreamRequest :=
  {| model := generateUnitTestsStream_modelName options;
     contents_text := generateUnitTestsStream_prompt code options;
     config_temperature := temperature (aiModelConfig options);
     config_topP := topP (aiModelConfig options);
     config_maxOutputTokens := maxTokens (aiModelConfig options) |}.

(** The message of the [Error] the generator throws from its [catch]. *)
Definition generation_error_message : jsstring :=
  js "Failed to generate tests via Gemini API. Please check your API key.".

(** [yield chunk.text || ''] for every chunk. *)
Definition yielded (chunks : list (option jsstring)) : list jsstring :=
  map (fun text => or_default text []) chunks.

(** The generator, run to its end against a provider [generateContentStream]:
    the fragments it yields, in order, and how it ends.  Whatever the SDK
    throws, before the first chunk or between two chunks, is caught and
    replaced by one [Error] with the fixed message.  ([getClient], before
    the [try], only builds the SDK client and warns on a missing key.) *)
Definition generateUnitTestsStream
    (generateContentStream : StreamRequest -> StreamResponse)
    (code : jsstring) (options : TestGenerationOptions)
  : list jsstring * Completion :=
  let responseStream :=
    generateContentStream (generateUnitTestsStream_request code options) in
  (yielded (stream_chunks responseStream),
   match stream_failure responseStream with
   | None => Returned
   | Some _ => Threw generation_error_message
   end).

(* ================================================================== *)
(** ** JavaScript values, as far as [JSON.parse] produces them         *)
(* ================================================================== *)

(** An object is its table of own properties.  Nothing in the modelled
    code enumerates an object it does not spread, so only the
    association of keys to values matters. *)
#[local] Set Warnings "-register-all".
Inductive JsValue :=
| JNull
| JBool (b : bool)
| JNum (q : Q)
| JStr (s : jsstring)
| JArr (items : list JsValue)
| JObj (props : list (jsstring * JsValue)).

(** [obj[key]] on a property table; [None] is [undefined]. *)
Fixpoint get_prop (props : list (jsstring * JsValue)) (key : jsstring)
  : option JsValue :=
  match props with
  | [] => None
  | (k, v) :: rest => if jsstring_eqb k key then Some v else get_prop rest key
  end.

(** Defining a data property: the value of an existing key is replaced
    where it stands, a new key is added at the end. *)
Fixpoint set_prop (props : list (jsstring * JsValue))
    (key : jsstring) (v : JsValue) : list (jsstring * JsValue) :=
  match props with
  | [] => [(key, v)]
  | (k, w) :: rest =>
      if jsstring_eqb k key then (k, v) :: rest
      else (k, w) :: set_prop rest key v
  end.

(** The decimal digits of an array index, as a property key. *)
Definition index_key (i : nat) : jsstring :=
  js (NilEmpty.string_of_uint (Nat.to_uint i)).

(** The properties of [items] from index [i] on. *)
Fixpoint indexed (i : nat) (items : list JsValue) : list (jsstring * JsValue) :=
  match items with
  | [] => []
  | v :: rest => (index_key i, v) :: indexed (S i) rest
  end.

(** The own enumerable properties that [{...data}] copies: those of an
    object, the elements of an array and the code units of a string under
    their indices, and none for [null], a boolean or a number. *)
Definition spread (data : JsValue) : list (jsstring * JsValue) :=
  match data with
  | JObj props => props
  | JArr items => indexed 0 items
  | JStr s => indexed 0 (map (fun c => JStr [c]) s)
  | JNull | JBool _ | JNum _ => []
  end.

(** A settled promise. *)
Inductive Promise (A : Type) :=
| Resolved (value : A)
| Rejected (message : jsstring).

Arguments Resolved {A} value.
Arguments Rejected {A} message.

(* ================================================================== *)
(** ** geminiService.ts: analyzeCodeWithGemini                         *)
(* ================================================================== *)

(** The double quote of the analysis prompt. *)
Definition dq : jsstring := [34%N].

(** The argument of [ai.models.generateContent]; the response schema is
    a constant of the call and is left out. *)
Record AnalysisRequest := {
  analysis_model : jsstring;
  analysis_contents : jsstring;
  responseMimeType : jsstring
}.

(** What the provider does with the one-shot request: it throws, or it
    answers with a response whose [text] is [string | undefined]. *)
Inductive AnalysisResponse :=
| CallThrows (e : SdkError)
| Response (text : option jsstring).

(** The fallback object of the [catch] block. *)
Definition fallbackReport : JsValue :=
  JObj
    [ (js "complexityScore", JNum 0);
      (js "readabilityScore", JNum 0);
      (js "maintainabilityIndex", JNum 0);
      (js "potentialBugs",
        JArr [ JObj [ (js "description", JStr (js "Analysis failed"));
                      (js "line", JNum 0);
                      (js "severity", JStr (RiskLevel_value Low)) ] ]);
      (js "securityVulnerabilities", JArr []);
      (js "dependencies", JArr []);
      (js "testCoverageEstimate",
        JObj [ (js "lines", JNum 0); (js "branches", JNum 0);
               (js "functions", JNum 0); (js "total", JNum 0) ]);
      (js "suggestedImprovements",
        JArr [ JStr (js "Check API Key"); JStr (js "Ensure code is valid") ]) ].

Section Analysis.

(** [JSON.parse]: a value, or [None] when it throws a [SyntaxError]. *)
Variable JSON_parse : jsstring -> option JsValue.

(** The provider behind [ai.models.generateContent]. *)
Variable generateContent : AnalysisRequest -> AnalysisResponse.

Definition analyzeCodeWithGemini_prompt (code language : jsstring) : jsstring :=
  js "Analyze the following " ++ language ++
  js " code for quality, security, and bugs. " ++ nl ++
  js "    Return the result in strict JSON format matching this structure:" ++ nl ++
  js "    {" ++ nl ++
  js "        " ++ dq ++ js "complexityScore" ++ dq ++ js ": number (1-10)," ++ nl ++
  js "        " ++ dq ++ js "readabilityScore" ++ dq ++ js ": number (0-1)," ++ nl ++
  js "        " ++ dq ++ js "maintainabilityIndex" ++ dq ++ js ": number (0-100)," ++ nl ++
  js "        " ++ dq ++ js "potentialBugs" ++ dq ++ js ": [{" ++
    dq ++ js "description" ++ dq ++ js ": string, " ++
    dq ++ js "line" ++ dq ++ js ": number, " ++
    dq ++ js "severity" ++ dq ++ js ": " ++
    dq ++ js "critical" ++ dq ++ js "|" ++ dq ++ js "high" ++ dq ++ js "|" ++
    dq ++ js "medium" ++ dq ++ js "|" ++ dq ++ js "low" ++ dq ++ js "|" ++
    dq ++ js "informational" ++ dq ++ js "}]," ++ nl ++
  js "        " ++ dq ++ js "securityVulnerabilities" ++ dq ++ js ": [{" ++
    dq ++ js "description" ++ dq ++ js ": string, " ++
    dq ++ js "severity" ++ dq ++ js ": " ++
    dq ++ js "critical" ++ dq ++ js "|" ++ dq ++ js "high" ++ dq ++ js "|" ++
    dq ++ js "medium" ++ dq ++ js "|" ++ dq ++ js "low" ++ dq ++ js "}]," ++ nl ++
  js "        " ++ dq ++ js "suggestedImprovements" ++ dq ++ js ": [string]," ++ nl ++
  js "        " ++ dq ++ js "testCoverageEstimate" ++ dq ++ js ": {" ++
    dq ++ js "lines" ++ dq ++ js ": number, " ++
    dq ++ js "branches" ++ dq ++ js ": number, " ++
    dq ++ js "functions" ++ dq ++ js ": number, " ++
    dq ++ js "total" ++ dq ++ js ": number}" ++ nl ++
  js "    }" ++ nl ++
  js "    " ++ nl ++
  js "    Code:" ++ nl ++
  js "    " ++ code.

Definition analyzeCodeWithGemini_request (code language : jsstring)
  : AnalysisRequest :=
  {| analysis_model := js "gemini-3-flash-preview";
     analysis_contents := analyzeCodeWithGemini_prompt code language;
     responseMimeType := js "application/json" |}.

(** The [try] block: [Some] report when it returns, [None] when it
    throws (the SDK call throws, [response.text] is falsy and the
    function throws "Empty response from Gemini", or [JSON.parse]
    throws). *)
Definition analyzeCodeWithGemini_try (code language : jsstring)
  : option JsValue :=
  match generateContent (analyzeCodeWithGemini_request code language) with
  | CallThrows _ => None
  | Response None => None
  | Response (Some []) => None
  | Response (Some (c :: text)) =>
      match JSON_parse (c :: text) with
      | None => None
      | Some data =>
          Some (JObj (set_prop (set_prop (spread data)
                                  (js "dependencies") (JArr []))
                        (js "externalReportUrls") (JArr [])))
      end
  end.

(** The whole function: the [catch] block turns every throw of the
    [try] block into the fallback object.  [getClient] only builds the
    SDK client (and warns on a missing key) before the [try]. *)
Definition analyzeCodeWithGemini (code language : jsstring)
  : Promise JsValue :=
  match analyzeCodeWithGemini_try code language with
  | Some report => Resolved report
  | None => Resolved fallbackReport
  end.

End Analysis.

(** The outcomes the catch block handles. *)
Definition analysis_call_fails
    (JSON_parse : jsstring -> option JsValue) (r : AnalysisResponse) : Prop :=
  match r with
  | CallThrows _ => True
  | Response None => True
  | Response (Some text) => text = [] \/ JSON_parse text = None
  end.

(* ================================================================== *)
(** ** AiUnitTestGenerator.tsx: cleanCodeForDownload                   *)
(* ================================================================== *)

(** The class [\w] of a regular expression without flags:
    [[A-Za-z0-9_]]. *)
Definition isWordChar (c : N) : bool :=
  ((48 <=? c) && (c <=? 57) || (65 <=? c) && (c <=? 90) ||
   (c =? 95) || (97 <=? c) && (c <=? 122))%N.

(** The code units [String.prototype.trim] removes: WhiteSpace and
    LineTerminator of the language specification. *)
Definition isWhiteSpace (c : N) : bool :=
  ((9 <=? c) && (c <=? 13) || (c =? 32) || (c =? 160) || (c =? 5760) ||
   (8192 <=? c) && (c <=? 8202) || (c =? 8232) || (c =? 8233) ||
   (c =? 8239) || (c =? 8287) || (c =? 12288) || (c =? 65279))%N.

Fixpoint trimStart (s : jsstring) : jsstring :=
  match s with
  | [] => []
  | c :: s' => if isWhiteSpace c then trimStart s' else s
  end.

Definition trimEnd (s : jsstring) : jsstring := rev (trimStart (rev s)).

Definition trim (s : jsstring) : jsstring := trimEnd (trimStart s).

(** The regular expressions of the component, as far as it uses the
    language: anchors, literal code units, a class repeated once or more,
    sequence and option.  Repetition and option are greedy. *)
Inductive Regex :=
| Bol                              (** [^], without the [m] flag *)
| Eol                              (** [$], without the [m] flag *)
| Chr (c : N)                      (** a literal code unit *)
| Plus (class : N -> bool)         (** [class+] *)
| Seq (r1 r2 : Regex)
| Opt (r : Regex).                 (** [(?:r)?] *)

(** [class+] by backtracking at position [pos] of the input, of which [s]
    is left: take as many code units of the class as there are, and give
    one back at a time while the continuation [k] fails. *)
Fixpoint plus_loop (class : N -> bool)
    (k : nat -> jsstring -> option jsstring) (pos : nat) (s : jsstring)
  : option jsstring :=
  match s with
  | [] => None
  | c :: s' =>
      if class c then
        match plus_loop class k (S pos) s' with
        | Some rest => Some rest
        | None => k (S pos) s'
        end
      else None
  end.

(** The backtracking matcher: what is left of the input after the first
    match of [r] followed by [k], in the order of the alternatives. *)
Fixpoint rmatch (r : Regex) (pos : nat) (s : jsstring)
    (k : nat -> jsstring -> option jsstring) : option jsstring :=
  match r with
  | Bol => if Nat.eqb pos 0 then k pos s else None
  | Eol => match s with [] => k pos s | _ :: _ => None end
  | Chr c =>
      match s with
      | d :: s' => if N.eqb d c then k (S pos) s' else None
      | [] => None
      end
  | Plus class => plus_loop class k pos s
  | Seq r1 r2 => rmatch r1 pos s (fun pos' s' => rmatch r2 pos' s' k)
  | Opt r1 =>
      match rmatch r1 pos s k with
      | Some rest => Some rest
      | None => k pos s
      end
  end.

(** The leftmost match: its position and what follows it. *)
Fixpoint search (r : Regex) (pos : nat) (s : jsstring)
  : option (nat * jsstring) :=
  match rmatch r pos s (fun _ rest => Some rest) with
  | Some rest => Some (pos, rest)
  | None =>
      match s with
      | [] => None
      | _ :: s' => search r (S pos) s'
      end
  end.

(** [input.replace(r, '')] for a regular expression without the [g]
    flag: the leftmost match is removed, if there is one. *)
Definition replace (r : Regex) (input : jsstring) : jsstring :=
  match search r 0 input with
  | Some (pos, rest) => firstn pos input ++ rest
  | None => input
  end.

(** [/^```(?:\w+\n)?/] *)
Definition leadingFence : Regex :=
  Seq Bol (Seq (Chr 96) (Seq (Chr 96) (Seq (Chr 96)
    (Opt (Seq (Plus isWordChar) (Chr 10)))))).

(** [/```$/] *)
Definition trailingFence : Regex :=
  Seq (Chr 96) (Seq (Chr 96) (Seq (Chr 96) Eol)).

Definition cleanCodeForDownload (code : jsstring) : jsstring :=
  trim (replace trailingFence (replace leadingFence code)).

(** *** The two replacements in closed form *)

(** The three backticks of a markdown fence. *)
Definition fence : jsstring := [96; 96; 96]%N.

(** What is left after the longest run of word characters. *)
Fixpoint skipWord (s : jsstring) : jsstring :=
  match s with
  | [] => []
  | c :: s' => if isWordChar c then skipWord s' else s
  end.

(** The optional group [(?:\w+\n)?] at the head of [s]: every run of word
    characters shorter than the longest is followed by a word character,
    so the group matches exactly when the longest run is not empty and a
    line feed follows it; otherwise the group matches nothing. *)
Definition skipLanguageTag (s : jsstring) : jsstring :=
  match s with
  | c :: _ =>
      if isWordChar c then
        match skipWord s with
        | c' :: rest => if (c' =? 10)%N then rest else s
        | [] => s
        end
      else s
  | [] => s
  end.

(** The closed form of [replace leadingFence]: the fence is looked for at
    the start of the input only. *)
Definition replaceLeadingFence (code : jsstring) : jsstring :=
  if startsWith code fence then skipLanguageTag (skipn 3 code) else code.

(** The closed form of [replace trailingFence]: the one possible match
    is the last three code units. *)
Definition replaceTrailingFence (s : jsstring) : jsstring :=
  if endsWith s fence then firstn (length s - 3) s else s.

(* ================================================================== *)
(** ** AiUnitTestGenerator.tsx: the component state and handleGenerate *)
(* ================================================================== *)

Inductive ArtifactStatus :=
  StatusGenerated | StatusFailed | StatusProcessing | StatusCommitted
| StatusReviewed.

Inductive ReviewStatus := ReviewPending | ReviewApproved | ReviewRejected.

Record GeneratedTestArtifact := {
  id : jsstring;
  timestamp : jsstring;
  sourceCode : jsstring;
  generatedTests : jsstring;
  optionsUsed : TestGenerationOptions;
  aiResponseMetadata : JsValue;
  status : ArtifactStatus;
  reviewStatus : option ReviewStatus
}.

Inductive NotificationType :=
  NotifyInfo | NotifySuccess | NotifyWarning | NotifyError.

Record Notification := {
  notification_id : jsstring;
  notification_message : jsstring;
  notification_type : NotificationType
}.

(** The values [handleGenerate] closes over (the dependency array of its
    [useCallback]): the source text and the current selections.  The
    three selections whose state variable has the name of an option field
    carry the prefix [sel_]. *)
Record Captured := {
  code : jsstring;
  selectedTestFramework : TestFramework;
  selectedAssertionLibrary : AssertionLibrary;
  selectedCodeLanguage : CodeLanguage;
  selectedTestTypes : list TestType;
  sel_includeMocks : bool;
  sel_generateEdgeCases : bool;
  selectedAiModel : AiModelProvider;
  sel_generationStrategy : GenerationStrategy;
  customPrompt : jsstring
}.

(** The state variables [handleGenerate] writes. *)
Record State := {
  tests : jsstring;
  isLoading : bool;
  error : jsstring;
  generationProgress : Z;
  generatedArtifactsHistory : list GeneratedTestArtifact;
  notifications : list Notification
}.

(** The state of a freshly mounted component. *)
Definition initialState : State :=
  {| tests := []; isLoading := false; error := [];
     generationProgress := 0; generatedArtifactsHistory := [];
     notifications := [] |}.

(** The calls [handleGenerate] makes, by the setter or service called. *)
Inductive Action :=
| setIsLoading (b : bool)
| setError (message : jsstring)
| setTests (buffer : jsstring)
| setGenerationProgress (value : Z)
    (** [setGenerationProgress(prev => Math.min(prev + 5, 95))] *)
| setGenerationProgress_step
    (** [setGeneratedArtifactsHistory(prev => [artifact, ...prev])] *)
| setGeneratedArtifactsHistory_prepend (artifact : GeneratedTestArtifact)
    (** [showNotification(message, type)], with the [Date.now()] it reads
        for the identifier; the timer that removes the notification five
        seconds later is not part of the operation. *)
| showNotification (nid message : jsstring) (type : NotificationType)
    (** [auditLogService.logAction(userId, action)], a console line *)
| logAction (userId action : jsstring).

(** What React does with the state on each call. *)
Definition reduce (st : State) (a : Action) : State :=
  match a with
  | setIsLoading b =>
      {| tests := tests st; isLoading := b; error := error st;
         generationProgress := generationProgress st;
         generatedArtifactsHistory := generatedArtifactsHistory st;
         notifications := notifications st |}
  | setError m =>
      {| tests := tests st; isLoading := isLoading st; error := m;
         generationProgress := generationProgress st;
         generatedArtifactsHistory := generatedArtifactsHistory st;
         notifications := notifications st |}
  | setTests t =>
      {| tests := t; isLoading := isLoading st; error := error st;
         generationProgress := generationProgress st;
         generatedArtifactsHistory := generatedArtifactsHistory st;
         notifications := notifications st |}
  | setGenerationProgress v =>
      {| tests := tests st; isLoading := isLoading st; error := error st;
         generationProgress := v;
         generatedArtifactsHistory := generatedArtifactsHistory st;
         notifications := notifications st |}
  | setGenerationProgress_step =>
      {| tests := tests st; isLoading := isLoading st; error := error st;
         generationProgress := Z.min (generationProgress st + 5) 95;
         generatedArtifactsHistory := generatedArtifactsHistory st;
         notifications := notifications st |}
  | setGeneratedArtifactsHistory_prepend artifact =>
      {| tests := tests st; isLoading := isLoading st; error := error st;
         generationProgress := generationProgress st;
         generatedArtifactsHistory := artifact :: generatedArtifactsHistory st;
         notifications := notifications st |}
  | showNotification nid m ty =>
      {| tests := tests st; isLoading := isLoading st; error := error st;
         generationProgress := generationProgress st;
         generatedArtifactsHistory := generatedArtifactsHistory st;
         notifications :=
           notifications st ++
           [ {| notification_id := nid; notification_message := m;
                notification_type := ty |} ] |}
  | logAction _ _ => st
  end.

(** The state after a list of calls. *)
Definition run (st : State) (acts : list Action) : State :=
  fold_left reduce acts st.

(** The states a list of calls goes through, one after each call. *)
Fixpoint states (st : State) (acts : list Action) : list State :=
  match acts with
  | [] => []
  | a :: rest => reduce st a :: states (reduce st a) rest
  end.

(** The buffers published by [setTests], in order. *)
Fixpoint published (acts : list Action) : list jsstring :=
  match acts with
  | [] => []
  | setTests buffer :: rest => buffer :: published rest
  | _ :: rest => published rest
  end.

(** The readings of the clock one operation makes: [Date.now().toString()]
    and [new Date().toISOString()] for the artifact, and [Date.now()
    .toString()] inside [showNotification]. *)
Record Clock := {
  artifact_now : jsstring;
  artifact_iso : jsstring;
  notification_now : jsstring
}.

(** [defaultUser.id]. *)
Definition defaultUser_id : jsstring := js "user_cg_123".

(** The object literal [options] of [handleGenerate]. *)
Definition handleGenerate_options (c : Captured) : TestGenerationOptions :=
  {| targetFramework := selectedTestFramework c;
     assertionLibrary := selectedAssertionLibrary c;
     codeLanguage := selectedCodeLanguage c;
     testTypes := selectedTestTypes c;
     includeMocks := sel_includeMocks c;
     includeStubs := false;
     generateEdgeCases := sel_generateEdgeCases c;
     generateNegativeTests := sel_generateEdgeCases c;
     aiModelConfig :=
       {| provider := selectedAiModel c;
          modelName := AiModelProvider_value (selectedAiModel c);
          temperature := 0.7;
          topP := 0.95;
          maxTokens := 4096 |};
     generationStrategy := sel_generationStrategy c;
     customPromptInstructions := Some (customPrompt c) |}.

(** The body of [for await (const chunk of stream)]: the calls it makes
    and the final [fullResponse].  (The scroll of the output pane writes
    the DOM only.) *)
Fixpoint handleGenerate_loop (fullResponse : jsstring) (chunks : list jsstring)
  : list Action * jsstring :=
  match chunks with
  | [] => ([], fullResponse)
  | chunk :: rest =>
      let fullResponse' := fullResponse ++ chunk in
      let (acts, final) := handleGenerate_loop fullResponse' rest in
      (setTests fullResponse' :: setGenerationProgress_step :: acts, final)
  end.

(** The four calls before the [try]. *)
Definition handleGenerate_reset : list Action :=
  [ setIsLoading true; setError []; setTests []; setGenerationProgress 0 ].

(** The object literal [artifact]. *)
Definition handleGenerate_artifact (clock : Clock) (c : Captured)
    (options : TestGenerationOptions) (fullResponse : jsstring)
  : GeneratedTestArtifact :=
  {| id := artifact_now clock;
     timestamp := artifact_iso clock;
     sourceCode := code c;
     generatedTests := fullResponse;
     optionsUsed := options;
     aiResponseMetadata := JObj [];
     status := StatusGenerated;
     reviewStatus := Some ReviewPending |}.

(** What follows the loop: the rest of the [try] block when the stream
    ended, the [catch] block when it threw. *)
Definition handleGenerate_finish (clock : Clock) (c : Captured)
    (options : TestGenerationOptions) (fullResponse : jsstring)
    (completion : Completion) : list Action :=
  match completion with
  | Returned =>
      [ setGenerationProgress 100;
        setGeneratedArtifactsHistory_prepend
          (handleGenerate_artifact clock c options fullResponse);
        showNotification (notification_now clock)
          (js "Tests generated successfully!") NotifySuccess;
        logAction defaultUser_id (js "GENERATE_TESTS") ]
  | Threw message =>
      [ setError message;
        showNotification (notification_now clock) message NotifyError ]
  end.

(** [handleGenerate]: nothing when the source text is blank; otherwise
    the reset, the loop over the fragments of the generator, the success
    or the failure branch, and the [finally]. *)
Definition handleGenerate
    (generateContentStream : StreamRequest -> StreamResponse)
    (clock : Clock) (c : Captured) : list Action :=
  match trim (code c) with
  | [] => []
  | _ :: _ =>
      let options := handleGenerate_options c in
      let (chunks, completion) :=
        generateUnitTestsStream generateContentStream (code c) options in
      let (acts, fullResponse) := handleGenerate_loop [] chunks in
      handleGenerate_reset ++ acts ++
      handleGenerate_finish clock c options fullResponse completion ++
      [ setIsLoading false ]
  end.

(* ================================================================== *)
(** ** Notions the properties are stated with                          *)
(* ================================================================== *)

(** [t] occurs in [s]. *)
Definition contains (s t : jsstring) : Prop :=
  exists before after, s = before ++ t ++ after.

(** Every element of a list is related to the one that follows it. *)
Fixpoint chain {A : Type} (R : A -> A -> Prop) (l : list A) : Prop :=
  match l with
  | [] => True
  | x :: rest =>
      match rest with
      | [] => True
      | y :: _ => R x y /\ chain R rest
      end
  end.

(** [b] is a prefix of [b']. *)
Definition prefix_of (b b' : jsstring) : Prop := exists chunk, b' = b ++ chunk.

(** The buffers a consumer of the fragments [fs] is expected to see: the
    concatenation of the first fragment, of the first two, and so on. *)
Definition running_buffers (fs : list jsstring) : list jsstring :=
  map (fun k => concat (firstn (S k) fs)) (seq 0 (length fs)).

(** The fragments one generation operation receives and the way its
    stream ends. *)
Definition fragments_of
    (generateContentStream : StreamRequest -> StreamResponse) (c : Captured)
  : list jsstring :=
  fst (generateUnitTestsStream generateContentStream (code c)
         (handleGenerate_options c)).

Definition completion_of
    (generateContentStream : StreamRequest -> StreamResponse) (c : Captured)
  : Completion :=
  snd (generateUnitTestsStream generateContentStream (code c)
         (handleGenerate_options c)).

(** The calls of an operation up to the end of its loop, that is, before
    the stream has completed. *)
Definition handleGenerate_streaming (fs : list jsstring) : list Action :=
  handleGenerate_reset ++ fst (handleGenerate_loop [] fs).

(** The progress values an operation goes through from its reset on,
    one value after each call: the three calls before
    [setGenerationProgress(0)] belong to the same synchronous run of the
    handler and leave the value of the previous operation in place. *)
Definition progress_trace (st : State) (acts : list Action) : list Z :=
  skipn 3 (map generationProgress (states st acts)).

(** The messages of the error notifications among the calls. *)
Fixpoint surfaced_errors (acts : list Action) : list jsstring :=
  match acts with
  | [] => []
  | showNotification _ message NotifyError :: rest =>
      message :: surfaced_errors rest
  | _ :: rest => surfaced_errors rest
  end.

(** The artifacts recorded among the calls. *)
Fixpoint recorded (acts : list Action) : list GeneratedTestArtifact :=
  match acts with
  | [] => []
  | setGeneratedArtifactsHistory_prepend artifact :: rest =>
      artifact :: recorded rest
  | _ :: rest => recorded rest
  end.

(** The notifications shown among the calls. *)
Fixpoint notified (acts : list Action) : list Notification :=
  match acts with
  | [] => []
  | showNotification nid message type :: rest =>
      {| notification_id := nid; notification_message := message;
         notification_type := type |} :: notified rest
  | _ :: rest => notified rest
  end.

(** One press of the button: the provider behind the request, the clock
    readings, and what the handler had captured. *)
Record Operation := {
  op_provider : StreamRequest -> StreamResponse;
  op_clock : Clock;
  op_captured : Captured
}.

(** The state after one operation, run on its own (the button is
    disabled while [isLoading] holds). *)
Definition generation_step (st : State) (op : Operation) : State :=
  run st (handleGenerate (op_provider op) (op_clock op) (op_captured op)).

(** The state after a list of operations, the oldest first. *)
Definition session (st : State) (ops : list Operation) : State :=
  fold_left generation_step ops st.

Definition is_blank (s : jsstring) : bool :=
  match trim s with [] => true | _ :: _ => false end.

(** The operation issued its request and the stream ended without an
    error. *)
Definition succeeds (op : Operation) : bool :=
  negb (is_blank (code (op_captured op))) &&
  match completion_of (op_provider op) (op_captured op) with
  | Returned => true
  | Threw _ => false
  end.

(** The operation issued its request and the stream threw. *)
Definition fails (op : Operation) : bool :=
  negb (is_blank (code (op_captured op))) &&
  match completion_of (op_provider op) (op_captured op) with
  | Returned => false
  | Threw _ => true
  end.

(** The artifact a successful operation builds. *)
Definition artifact_of (op : Operation) : GeneratedTestArtifact :=
  handleGenerate_artifact (op_clock op) (op_captured op)
    (handleGenerate_options (op_captured op))
    (concat (fragments_of (op_provider op) (op_captured op))).

(** A field of a report object; [None] is [undefined]. *)
Definition report_field (report : JsValue) (key : jsstring) : option JsValue :=
  match report with
  | JObj props => get_prop props key
  | _ => None
  end.

(* ================================================================== *)
(** ** AiUnitTestGenerator.tsx: the rest of the component              *)
(* ================================================================== *)

(** Truthiness of a string: [''] is falsy. *)
Definition is_empty (s : jsstring) : bool :=
  match s with [] => true | _ :: _ => false end.

(** The timer [showNotification] starts, when it fires five seconds
    later: [setNotifications(prev => prev.filter(n => n.id !== id))]. *)
Definition expireNotification (nid : jsstring) (st : State) : State :=
  {| tests := tests st; isLoading := isLoading st; error := error st;
     generationProgress := generationProgress st;
     generatedArtifactsHistory := generatedArtifactsHistory st;
     notifications :=
       filter (fun n => negb (jsstring_eqb (notification_id n) nid))
         (notifications st) |}.

(** The audit lines among the calls: user and action. *)
Fixpoint logged (acts : list Action) : list (jsstring * jsstring) :=
  match acts with
  | [] => []
  | logAction userId action :: rest => (userId, action) :: logged rest
  | _ :: rest => logged rest
  end.

(** The texts of the chunks that have one. *)
Definition texts (chunks : list (option jsstring)) : list jsstring :=
  flat_map (fun text => match text with Some s => [s] | None => [] end) chunks.

(** What the output pane of the Tests tab shows, from top to bottom:
    the spinner with the progress bar ([isLoading && !tests]), the error
    alert ([error]), the generated text ([tests]) and the placeholder
    ([!isLoading && !tests && !error]). *)
Inductive PaneItem :=
| PaneLoading (progress : Z)
| PaneError (message : jsstring)
| PaneTests (content : jsstring)
| PanePlaceholder.

Definition testsPane (st : State) : list PaneItem :=
  (if isLoading st && is_empty (tests st)
   then [PaneLoading (generationProgress st)] else []) ++
  (if negb (is_empty (error st)) then [PaneError (error st)] else []) ++
  (if negb (is_empty (tests st)) then [PaneTests (tests st)] else []) ++
  (if negb (isLoading st) && is_empty (tests st) && is_empty (error st)
   then [PanePlaceholder] else []).

(** The Copy and Download buttons are rendered under [tests && !isLoading];
    both hand [cleanCodeForDownload(tests)] on, to the clipboard and to
    [downloadFile]. *)
Definition offersCopyDownload (st : State) : option jsstring :=
  if negb (is_empty (tests st)) && negb (isLoading st)
  then Some (cleanCodeForDownload (tests st))
  else None.

(** The calls [analyzeCode] makes. *)
Inductive AnalyzeAction :=
| setIsAnalysisLoading (b : bool)
| setCodeAnalysisReport (report : option JsValue)
    (** [telemetryService.trackEvent(event)], a console line *)
| trackEvent (event : jsstring)
| analyze_showNotification (nid message : jsstring) (type : NotificationType).

(** [analyzeCode]: nothing when the source text is blank; otherwise the
    call of [analyzeCodeWithGemini] between the two writes of the loading
    flag, with the report stored when the promise resolves and an error
    notification shown when it is rejected. *)
Definition analyzeCode
    (JSON_parse : jsstring -> option JsValue)
    (generateContent : AnalysisRequest -> AnalysisResponse)
    (now : jsstring) (code : jsstring) (selectedCodeLanguage : CodeLanguage)
  : list AnalyzeAction :=
  match trim code with
  | [] => []
  | _ :: _ =>
      [ setIsAnalysisLoading true ] ++
      match analyzeCodeWithGemini JSON_parse generateContent code
              (CodeLanguage_value selectedCodeLanguage) with
      | Resolved report =>
          [ setCodeAnalysisReport (Some report);
            trackEvent (js "code_analysis_complete") ]
      | Rejected _ =>
          [ analyze_showNotification now
              (js "Analysis failed. Is your API Key valid?") NotifyError ]
      end ++
      [ setIsAnalysisLoading false ]
  end.

(** The state variables [analyzeCode] writes. *)
Record AnalysisState := {
  codeAnalysisReport : option JsValue;
  isAnalysisLoading : bool
}.

Definition reduce_analysis (st : AnalysisState) (a : AnalyzeAction)
  : AnalysisState :=
  match a with
  | setIsAnalysisLoading b =>
      {| codeAnalysisReport := codeAnalysisReport st; isAnalysisLoading := b |}
  | setCodeAnalysisReport report =>
      {| codeAnalysisReport := report;
         isAnalysisLoading := isAnalysisLoading st |}
  | trackEvent _ => st
  | analyze_showNotification _ _ _ => st
  end.

(** The error notifications among the calls of [analyzeCode]. *)
Fixpoint analyze_notified (acts : list AnalyzeAction) : list jsstring :=
  match acts with
  | [] => []
  | analyze_showNotification _ message _ :: rest =>
      message :: analyze_notified rest
  | _ :: rest => analyze_notified rest
  end.

(** The report object of a reply that spreads to nothing: only the two
    fields added locally. *)
Definition bareReport : JsValue :=
  JObj [ (js "dependencies", JArr []); (js "externalReportUrls", JArr []) ].

(* ================================================================== *)
(** ** Sample inputs                                                   *)
(* ================================================================== *)

(** The selections of a freshly mounted component, with a one-line
    source text. *)
Definition sample_captured : Captured :=
  {| code := js "export const one = () => 1;";
     selectedTestFramework := Jest;
     selectedAssertionLibrary := Expect;
     selectedCodeLanguage := TypeScript;
     selectedTestTypes := [Unit; Integration];
     sel_includeMocks := true;
     sel_generateEdgeCases := true;
     selectedAiModel := GeminiFlash;
     sel_generationStrategy := Hybrid;
     customPrompt := [] |}.

Definition sample_clock : Clock :=
  {| artifact_now := js "1700000000000";
     artifact_iso := js "2023-11-14T22:13:20.000Z";
     notification_now := js "1700000000001" |}.

(** A provider that streams three chunks and ends. *)
Definition provider_streaming (_ : StreamRequest) : StreamResponse :=
  {| stream_chunks := [Some (js "a"); Some (js "b"); Some (js "c")];
     stream_failure := None |}.

(** A provider whose stream breaks after one chunk. *)
Definition provider_failing (_ : StreamRequest) : StreamResponse :=
  {| stream_chunks := [Some (js "a")];
     stream_failure := Some {| sdk_message := js "fetch failed" |} |}.

(** A provider of the analysis call that is out of reach. *)
Definition analysis_unreachable (_ : AnalysisRequest) : AnalysisResponse :=
  CallThrows {| sdk_message := js "fetch failed" |}.

(** A parser that rejects every text. *)
Definition parse_nothing (_ : jsstring) : option JsValue := None.

(** A provider that streams only chunks without text and ends. *)
Definition provider_silent (_ : StreamRequest) : StreamResponse :=
  {| stream_chunks := [None; Some []]; stream_failure := None |}.

(** A provider of the analysis call that answers [null]. *)
Definition analysis_null (_ : AnalysisRequest) : AnalysisResponse :=
  Response (Some (js "null")).

(** A parser that knows the text [null] only. *)
Definition parse_null (text : jsstring) : option JsValue :=
  if jsstring_eqb text (js "null") then Some JNull else None.

(** Options that differ from those of the sample selections in the four
    fields the request does not read. *)
Definition sample_options_other : TestGenerationOptions :=
  {| targetFramework := Jest;
     assertionLibrary := Expect;
     codeLanguage := TypeScript;
     testTypes := [Security];
     includeMocks := true;
     includeStubs := true;
     generateEdgeCases := true;
     generateNegativeTests := false;
     aiModelConfig :=
       {| provider := GeminiFlash;
          modelName := js "some-other-model";
          temperature := 0.7;
          topP := 0.95;
          maxTokens := 4096 |};
     generationStrategy := Hybrid;
     customPromptInstructions := Some [] |}.

(* ================================================================== *)
(** * Properties                                                       *)
(* ================================================================== *)

(** ** Strings *)

Lemma jsstring_eqb_eq (s t : jsstring) : jsstring_eqb s t = true <-> s = t.
Proof.
  revert t; induction s as [|c s IH]; intros [|d t]; simpl;
    try (split; [discriminate | discriminate]).
  - split; reflexivity.
  - rewrite andb_true_iff, N.eqb_eq, IH. split.
    + intros [-> ->]; reflexivity.
    + intros H; injection H as -> ->; split; reflexivity.
Qed.

Lemma jsstring_eqb_refl (s : jsstring) : jsstring_eqb s s = true.
Proof. apply jsstring_eqb_eq; reflexivity. Qed.

Lemma startsWith_spec (s p : jsstring) :
  startsWith s p = true <-> exists rest, s = p ++ rest.
Proof.
  revert s; induction p as [|d p IH]; intros s.
  - destruct s; simpl; split; intros; eauto.
  - destruct s as [|c s]; simpl.
    + split; [discriminate | intros [r H]; discriminate].
    + rewrite andb_true_iff, N.eqb_eq, IH. split.
      * intros [-> [r ->]]. exists r; reflexivity.
      * intros [r H]. injection H as -> ->. split; [reflexivity | eauto].
Qed.

Lemma includes_spec (s t : jsstring) : includes s t = true <-> contains s t.
Proof.
  unfold contains. induction s as [|c s IH].
  - change (includes [] t) with (startsWith [] t || false).
    rewrite orb_false_r, startsWith_spec. split.
    + intros [r H]. exists [], r. exact H.
    + intros [a [b H]]. destruct a; [|discriminate]. exists b. exact H.
  - change (includes (c :: s) t)
      with (startsWith (c :: s) t || includes s t).
    rewrite orb_true_iff, startsWith_spec, IH. split.
    + intros [[r H] | [a [b H]]].
      * exists [], r. exact H.
      * exists (c :: a), b. rewrite H. reflexivity.
    + intros [[|c' a] [b H]].
      * left. exists b. exact H.
      * right. injection H as _ H. exists a, b. exact H.
Qed.

Lemma contains_refl (t : jsstring) : contains t t.
Proof. exists [], []. rewrite app_nil_r. reflexivity. Qed.

Lemma contains_here (t after : jsstring) : contains (t ++ after) t.
Proof. exists [], after. reflexivity. Qed.

Lemma contains_skip (a s t : jsstring) : contains s t -> contains (a ++ s) t.
Proof.
  intros [x [y ->]]. exists (a ++ x), y. rewrite app_assoc. reflexivity.
Qed.

Lemma contains_left (s b t : jsstring) : contains s t -> contains (s ++ b) t.
Proof.
  intros [x [y ->]]. exists x, (y ++ b).
  rewrite <- !app_assoc. reflexivity.
Qed.

(** Finds [t] among the pieces of a concatenation. *)
Ltac find_piece :=
  first
    [ apply contains_here
    | apply contains_refl
    | apply contains_skip; find_piece ].

(** ** Model resolution and the prompt *)

(** With the four providers of the enumeration, only [GeminiPro] is
    sent to the pro model. *)
Lemma enum_providers_resolution (p : AiModelProvider) :
  resolveModel (AiModelProvider_value p) = js "gemini-3-pro-preview"
  <-> p = GeminiPro.
Proof.
  destruct p; split; intros H; try reflexivity; try discriminate H;
    vm_compute in H; discriminate H.
Qed.

(** A string that holds "pro" for another reason is sent to the pro
    model as well. *)
Example improved_resolves_to_pro :
  resolveModel (js "improved-flash") = js "gemini-3-pro-preview".
Proof. reflexivity. Qed.

(** C6.  The model the request names is the pro model exactly when the
    provider's identifier contains "pro", and the flash model exactly
    when it does not; this holds for the identifier of every option value
    and for any string whatever.  "gemini-pro" resolves to the pro model,
    "gemini-flash" to the flash model. *)
Theorem model_resolution :
  (forall (code : jsstring) (options : TestGenerationOptions),
      let providerId := AiModelProvider_value (provider (aiModelConfig options)) in
      let resolved := model (generateUnitTestsStream_request code options) in
      (resolved = js "gemini-3-pro-preview"
       <-> contains providerId (js "pro")) /\
      (resolved = js "gemini-3-flash-preview"
       <-> ~ contains providerId (js "pro")) /\
      resolved = if includes providerId (js "pro")
                 then js "gemini-3-pro-preview"
                 else js "gemini-3-flash-preview") /\
  (forall providerId : jsstring,
      (resolveModel providerId = js "gemini-3-pro-preview"
       <-> contains providerId (js "pro")) /\
      (resolveModel providerId = js "gemini-3-flash-preview"
       <-> ~ contains providerId (js "pro"))) /\
  resolveModel (js "gemini-pro") = js "gemini-3-pro-preview" /\
  resolveModel (js "gemini-flash") = js "gemini-3-flash-preview".
Proof.
  assert (G : forall providerId : jsstring,
             (resolveModel providerId = js "gemini-3-pro-preview"
              <-> contains providerId (js "pro")) /\
             (resolveModel providerId = js "gemini-3-flash-preview"
              <-> ~ contains providerId (js "pro"))).
  { intros providerId. unfold resolveModel.
    destruct (includes providerId (js "pro")) eqn:E.
    - apply includes_spec in E. split; split; intros H; try reflexivity;
        try assumption.
      + cbv in H. discriminate.
      + contradiction.
    - assert (N : ~ contains providerId (js "pro")).
      { intros C. apply includes_spec in C. congruence. }
      split; split; intros H; try reflexivity; try assumption.
      + cbv in H. discriminate.
      + contradiction. }
  split; [|split; [exact G | split; reflexivity]].
  intros code options providerId resolved.
  destruct (G providerId) as [P F].
  split; [exact P|]. split; [exact F | reflexivity].
Qed.

(** C7.  The text sent to the model contains the values of the
    framework, the assertion library, the language and the strategy, the
    custom instructions when they are not empty and "None" when they are
    empty or missing, and it ends with the source code, unchanged.  The
    text is a function of the source code and the options alone. *)
Theorem prompt_embeds_options :
  forall (code : jsstring) (options : TestGenerationOptions),
    let prompt := contents_text (generateUnitTestsStream_request code options) in
    includes prompt (TestFramework_value (targetFramework options)) = true /\
    includes prompt (AssertionLibrary_value (assertionLibrary options)) = true /\
    includes prompt (CodeLanguage_value (codeLanguage options)) = true /\
    includes prompt (GenerationStrategy_value (generationStrategy options)) = true /\
    match customPromptInstructions options with
    | Some (c :: instructions) => includes prompt (c :: instructions) = true
    | Some [] | None => includes prompt (js "None") = true
    end /\
    includes prompt code = true /\
    endsWith prompt code = true.
Proof.
  intros code options prompt. subst prompt.
  unfold generateUnitTestsStream_request, contents_text,
    generateUnitTestsStream_prompt.
  repeat split.
  - apply includes_spec, contains_left.
    unfold generateUnitTestsStream_systemPrompt. find_piece.
  - apply includes_spec, contains_left.
    unfold generateUnitTestsStream_systemPrompt. find_piece.
  - apply includes_spec, contains_left.
    unfold generateUnitTestsStream_systemPrompt. find_piece.
  - apply includes_spec, contains_left.
    unfold generateUnitTestsStream_systemPrompt. find_piece.
  - assert (C : contains
                  (generateUnitTestsStream_systemPrompt options ++
                   (nl ++ nl) ++ generateUnitTestsStream_userPrompt code)
                  (or_default (customPromptInstructions options) (js "None"))).
    { apply contains_left.
      unfold generateUnitTestsStream_systemPrompt. find_piece. }
    apply includes_spec in C.
    destruct (customPromptInstructions options) as [[|c instructions]|];
      exact C.
  - apply includes_spec. unfold generateUnitTestsStream_userPrompt.
    find_piece.
  - unfold endsWith. apply startsWith_spec.
    unfold generateUnitTestsStream_userPrompt.
    rewrite !rev_app_distr. rewrite <- !app_assoc. eauto.
Qed.

(** C10.  Whatever the selections, the options [handleGenerate] builds
    have [includeStubs] false, [generateNegativeTests] equal to
    [generateEdgeCases], [modelName] equal to the provider identifier and
    the configuration 0.7, 0.95, 4096, and the request carries that
    configuration; no other combination of these fields is ever built. *)
Theorem options_fixed_fields :
  forall c : Captured,
    let options := handleGenerate_options c in
    let request := generateUnitTestsStream_request (code c) options in
    includeStubs options = false /\
    generateNegativeTests options = generateEdgeCases options /\
    modelName (aiModelConfig options)
    = AiModelProvider_value (provider (aiModelConfig options)) /\
    temperature (aiModelConfig options) = 0.7 /\
    topP (aiModelConfig options) = 0.95 /\
    maxTokens (aiModelConfig options) = 4096 /\
    config_temperature request = 0.7 /\
    config_topP request = 0.95 /\
    config_maxOutputTokens request = 4096.
Proof.
  intros c options request. repeat split.
Qed.

(** ** The loop of handleGenerate *)

Lemma handleGenerate_loop_cons (acc chunk : jsstring) (rest : list jsstring) :
  handleGenerate_loop acc (chunk :: rest)
  = (setTests (acc ++ chunk) :: setGenerationProgress_step ::
       fst (handleGenerate_loop (acc ++ chunk) rest),
     snd (handleGenerate_loop (acc ++ chunk) rest)).
Proof.
  simpl. destruct (handleGenerate_loop (acc ++ chunk) rest). reflexivity.
Qed.

Lemma handleGenerate_loop_final (fs : list jsstring) :
  forall acc, snd (handleGenerate_loop acc fs) = acc ++ concat fs.
Proof.
  induction fs as [|f fs IH]; intros acc.
  - simpl. rewrite app_nil_r. reflexivity.
  - rewrite handleGenerate_loop_cons. simpl. rewrite IH, app_assoc.
    reflexivity.
Qed.

Lemma handleGenerate_loop_app (fs1 fs2 : list jsstring) :
  forall acc,
    fst (handleGenerate_loop acc (fs1 ++ fs2))
    = fst (handleGenerate_loop acc fs1) ++
      fst (handleGenerate_loop (acc ++ concat fs1) fs2).
Proof.
  induction fs1 as [|f fs1 IH]; intros acc.
  - simpl. rewrite app_nil_r. reflexivity.
  - rewrite <- app_comm_cons, !handleGenerate_loop_cons. simpl.
    rewrite IH, app_assoc. reflexivity.
Qed.

(** The buffers seen from the buffer [acc] on. *)
Lemma running_shift (acc f : jsstring) (fs : list jsstring) :
  map (fun k => acc ++ concat (firstn (S k) (f :: fs)))
      (seq 0 (S (length fs)))
  = (acc ++ f) ::
    map (fun k => (acc ++ f) ++ concat (firstn (S k) fs)) (seq 0 (length fs)).
Proof.
  simpl. rewrite app_nil_r. f_equal.
  rewrite <- seq_shift, map_map. apply map_ext.
  intros k. simpl. rewrite app_assoc. reflexivity.
Qed.

Lemma handleGenerate_loop_published (fs : list jsstring) :
  forall acc,
    published (fst (handleGenerate_loop acc fs))
    = map (fun k => acc ++ concat (firstn (S k) fs)) (seq 0 (length fs)).
Proof.
  induction fs as [|f fs IH]; intros acc.
  - reflexivity.
  - rewrite handleGenerate_loop_cons.
    change (length (f :: fs)) with (S (length fs)).
    rewrite running_shift. simpl. rewrite IH. reflexivity.
Qed.

Lemma running_chain (fs : list jsstring) :
  forall acc,
    chain prefix_of
      (acc :: map (fun k => acc ++ concat (firstn (S k) fs))
                  (seq 0 (length fs))).
Proof.
  induction fs as [|f fs IH]; intros acc.
  - exact I.
  - change (length (f :: fs)) with (S (length fs)).
    rewrite running_shift. split.
    + exists f. reflexivity.
    + apply IH.
Qed.

Lemma published_app (a b : list Action) :
  published (a ++ b) = published a ++ published b.
Proof.
  induction a as [|x a IH]; [reflexivity|].
  destruct x; simpl; rewrite IH; reflexivity.
Qed.

(** The shape of an operation that issues its request. *)
Lemma handleGenerate_unfold
    (gcs : StreamRequest -> StreamResponse) (clock : Clock) (c : Captured) :
  is_blank (code c) = false ->
  handleGenerate gcs clock c
  = handleGenerate_streaming (fragments_of gcs c) ++
    handleGenerate_finish clock c (handleGenerate_options c)
      (concat (fragments_of gcs c)) (completion_of gcs c) ++
    [ setIsLoading false ].
Proof.
  unfold is_blank, handleGenerate, handleGenerate_streaming, fragments_of,
    completion_of.
  destruct (trim (code c)) as [|x t]; [discriminate|]. intros _.
  destruct (generateUnitTestsStream gcs (code c) (handleGenerate_options c))
    as [chunks completion].
  cbn [fst snd].
  pose proof (handleGenerate_loop_final chunks []) as F.
  destruct (handleGenerate_loop [] chunks) as [acts final].
  cbn [fst snd app] in F |- *. subst final.
  rewrite <- !app_assoc. reflexivity.
Qed.

Lemma handleGenerate_blank
    (gcs : StreamRequest -> StreamResponse) (clock : Clock) (c : Captured) :
  is_blank (code c) = true -> handleGenerate gcs clock c = [].
Proof.
  unfold is_blank, handleGenerate.
  destruct (trim (code c)); [reflexivity | discriminate].
Qed.

(** C1.  The loop publishes one buffer after each fragment, the k-th
    being the concatenation of the first k fragments in arrival order;
    each buffer is a prefix of the next, the last is the concatenation of
    all fragments, and for "a", "b", "c" the buffers are "a", "ab",
    "abc".  In a whole operation the buffers published are the reset to
    the empty text followed by these. *)
Theorem accumulator_publishes_running_buffers :
  (forall fs : list jsstring,
      published (fst (handleGenerate_loop [] fs)) = running_buffers fs /\
      length (running_buffers fs) = length fs /\
      chain prefix_of ([] :: running_buffers fs) /\
      snd (handleGenerate_loop [] fs) = concat fs) /\
  (forall gcs clock c,
      published (handleGenerate gcs clock c)
      = if is_blank (code c) then []
        else [] :: running_buffers (fragments_of gcs c)) /\
  running_buffers [js "a"; js "b"; js "c"] = [js "a"; js "ab"; js "abc"].
Proof.
  split; [|split].
  - intros fs. repeat split.
    + apply handleGenerate_loop_published.
    + unfold running_buffers. rewrite length_map, length_seq. reflexivity.
    + apply (running_chain fs []).
    + apply handleGenerate_loop_final.
  - intros gcs clock c. destruct (is_blank (code c)) eqn:B.
    + rewrite handleGenerate_blank by assumption. reflexivity.
    + rewrite handleGenerate_unfold by assumption.
      unfold handleGenerate_streaming. rewrite !published_app.
      rewrite handleGenerate_loop_published.
      destruct (completion_of gcs c); simpl; rewrite app_nil_r; reflexivity.
  - reflexivity.
Qed.

(** ** The progress value *)

Local Open Scope Z_scope.

Lemma run_app (st : State) (a b : list Action) :
  run st (a ++ b) = run (run st a) b.
Proof. apply fold_left_app. Qed.

Lemma states_app (a b : list Action) :
  forall st, states st (a ++ b) = states st a ++ states (run st a) b.
Proof.
  induction a as [|x a IH]; intros st; [reflexivity|].
  simpl. rewrite IH. reflexivity.
Qed.

Lemma loop_progress (fs : list jsstring) :
  forall acc st,
    generationProgress st <= 95 ->
    generationProgress (run st (fst (handleGenerate_loop acc fs)))
    = Z.min (generationProgress st + 5 * Z.of_nat (length fs)) 95.
Proof.
  induction fs as [|f fs IH]; intros acc st H.
  - simpl. lia.
  - rewrite handleGenerate_loop_cons.
    cbn [fst run fold_left]. fold (run (reduce (reduce st (setTests (acc ++ f)))
                                        setGenerationProgress_step)
                                  (fst (handleGenerate_loop (acc ++ f) fs))).
    rewrite IH; simpl generationProgress; [|lia].
    change (length (f :: fs)) with (S (length fs)). lia.
Qed.

Lemma loop_bounded (fs : list jsstring) :
  forall acc st,
    0 <= generationProgress st <= 95 ->
    Forall (fun p => 0 <= p <= 95)
      (map generationProgress (states st (fst (handleGenerate_loop acc fs)))).
Proof.
  induction fs as [|f fs IH]; intros acc st H.
  - constructor.
  - rewrite handleGenerate_loop_cons. cbn [fst states map].
    constructor; [exact H|].
    constructor; [simpl; lia|].
    apply IH. simpl. lia.
Qed.

(** The progress values of the loop never go down, and neither do those
    of what follows it, provided that is so from any state whose progress
    is at most 95. *)
Lemma loop_monotone (fs : list jsstring) (rest : list Action) :
  (forall st', generationProgress st' <= 95 ->
     chain Z.le (generationProgress st' ::
                 map generationProgress (states st' rest))) ->
  forall acc st,
    generationProgress st <= 95 ->
    chain Z.le
      (generationProgress st ::
       map generationProgress
         (states st (fst (handleGenerate_loop acc fs) ++ rest))).
Proof.
  intros K. induction fs as [|f fs IH]; intros acc st H.
  - apply K. exact H.
  - rewrite handleGenerate_loop_cons. cbn [fst app states map].
    split; [simpl; lia|]. split; [simpl; lia|].
    apply IH. simpl. lia.
Qed.

Lemma finish_monotone (clock : Clock) (c : Captured)
    (options : TestGenerationOptions) (full : jsstring) (k : Completion) :
  forall st, generationProgress st <= 95 ->
    chain Z.le
      (generationProgress st ::
       map generationProgress
         (states st (handleGenerate_finish clock c options full k ++
                     [ setIsLoading false ]))).
Proof.
  intros st H. destruct k; simpl; repeat split; lia.
Qed.

(** The progress values from the reset on: [0], then those of the calls
    that follow the reset. *)
Lemma progress_trace_reset (st : State) (acts : list Action) :
  progress_trace st (handleGenerate_reset ++ acts)
  = 0 :: map generationProgress (states (run st handleGenerate_reset) acts).
Proof. reflexivity. Qed.

Lemma streaming_progress (st : State) (fs : list jsstring) :
  generationProgress (run st (handleGenerate_streaming fs))
  = Z.min (5 * Z.of_nat (length fs)) 95.
Proof.
  unfold handleGenerate_streaming. rewrite run_app.
  rewrite loop_progress; simpl; lia.
Qed.

(** C2.  In an operation that issues its request the progress value is 0
    after the reset, never goes down, is [min (5 k) 95] after the k-th
    fragment (5 more per fragment up to the bound 95), stays within 0 and
    95 until the loop is over, and from then on is 100 when the stream
    ended and the bounded value, hence not 100, when it threw. *)
Theorem progress_tracker :
  forall gcs clock c st,
    is_blank (code c) = false ->
    let fs := fragments_of gcs c in
    let acts := handleGenerate gcs clock c in
    let final :=
      match completion_of gcs c with
      | Returned => 100
      | Threw _ => Z.min (5 * Z.of_nat (length fs)) 95
      end in
    hd_error (progress_trace st acts) = Some 0 /\
    chain Z.le (progress_trace st acts) /\
    (forall k : nat,
        generationProgress (run st (handleGenerate_streaming (firstn k fs)))
        = Z.min (5 * Z.of_nat (Nat.min k (length fs))) 95) /\
    Forall (fun p => 0 <= p <= 95)
      (progress_trace st (handleGenerate_streaming fs)) /\
    (exists after,
        progress_trace st acts
        = progress_trace st (handleGenerate_streaming fs) ++ after /\
        after <> [] /\ Forall (fun p => p = final) after) /\
    generationProgress (run st acts) = final /\
    (final = 100 <-> completion_of gcs c = Returned).
Proof.
  intros gcs clock c st B fs acts final. subst acts.
  rewrite (handleGenerate_unfold gcs clock c B). fold fs.
  assert (P : generationProgress (run st (handleGenerate_streaming fs))
              = Z.min (5 * Z.of_nat (length fs)) 95)
    by apply streaming_progress.
  unfold handleGenerate_streaming in *.
  split; [reflexivity|].
  split.
  { rewrite <- app_assoc, progress_trace_reset.
    apply loop_monotone; [apply finish_monotone | simpl; lia]. }
  split.
  { intros k. rewrite run_app, loop_progress by (simpl; lia).
    rewrite length_firstn. simpl. lia. }
  split.
  { rewrite progress_trace_reset. constructor; [lia|].
    apply loop_bounded. simpl. lia. }
  split.
  { rewrite <- app_assoc, !progress_trace_reset, states_app, map_app.
    rewrite <- run_app.
    exists (map generationProgress
              (states (run st (handleGenerate_reset ++
                               fst (handleGenerate_loop [] fs)))
                 (handleGenerate_finish clock c (handleGenerate_options c)
                    (concat fs) (completion_of gcs c) ++
                  [ setIsLoading false ]))).
    split; [reflexivity|]. subst final.
    destruct (completion_of gcs c); simpl; (split; [discriminate|]);
      repeat constructor; exact P. }
  split.
  { rewrite app_assoc, run_app, run_app. subst final.
    destruct (completion_of gcs c); simpl; [reflexivity | exact P]. }
  subst final. destruct (completion_of gcs c) eqn:E; split; intros H;
    try reflexivity; try discriminate; lia.
Qed.

(** ** The history and the failure of a generation *)

Lemma history_run (acts : list Action) :
  forall st,
    generatedArtifactsHistory (run st acts)
    = rev (recorded acts) ++ generatedArtifactsHistory st.
Proof.
  induction acts as [|a acts IH]; intros st; [reflexivity|].
  change (run st (a :: acts)) with (run (reduce st a) acts). rewrite IH.
  destruct a; simpl; try reflexivity.
  rewrite <- app_assoc. reflexivity.
Qed.

Lemma notifications_run (acts : list Action) :
  forall st,
    notifications (run st acts) = notifications st ++ notified acts.
Proof.
  induction acts as [|a acts IH]; intros st.
  - simpl. rewrite app_nil_r. reflexivity.
  - change (run st (a :: acts)) with (run (reduce st a) acts). rewrite IH.
    destruct a; simpl; try reflexivity.
    rewrite <- app_assoc. reflexivity.
Qed.

Lemma recorded_app (a b : list Action) :
  recorded (a ++ b) = recorded a ++ recorded b.
Proof.
  induction a as [|x a IH]; [reflexivity|].
  destruct x; simpl; rewrite IH; reflexivity.
Qed.

Lemma notified_app (a b : list Action) :
  notified (a ++ b) = notified a ++ notified b.
Proof.
  induction a as [|x a IH]; [reflexivity|].
  destruct x; simpl; rewrite IH; reflexivity.
Qed.

Lemma surfaced_errors_app (a b : list Action) :
  surfaced_errors (a ++ b) = surfaced_errors a ++ surfaced_errors b.
Proof.
  induction a as [|x a IH]; [reflexivity|].
  destruct x as [| | | | | |nid m []|]; simpl; rewrite IH; reflexivity.
Qed.

(** The loop records nothing and shows no notification. *)
Lemma loop_silent (fs : list jsstring) :
  forall acc,
    recorded (fst (handleGenerate_loop acc fs)) = [] /\
    notified (fst (handleGenerate_loop acc fs)) = [] /\
    surfaced_errors (fst (handleGenerate_loop acc fs)) = [].
Proof.
  induction fs as [|f fs IH]; intros acc.
  - repeat split.
  - rewrite handleGenerate_loop_cons. simpl. apply IH.
Qed.

Lemma loop_tests (fs : list jsstring) :
  forall acc st,
    tests st = acc ->
    tests (run st (fst (handleGenerate_loop acc fs))) = acc ++ concat fs.
Proof.
  induction fs as [|f fs IH]; intros acc st H.
  - simpl. rewrite app_nil_r. exact H.
  - rewrite handleGenerate_loop_cons. cbn [fst].
    change (run st (?a :: ?b :: ?r)) with (run (reduce (reduce st a) b) r).
    rewrite IH by reflexivity. simpl. rewrite app_assoc. reflexivity.
Qed.

(** What one operation records. *)
Lemma handleGenerate_recorded (op : Operation) :
  recorded (handleGenerate (op_provider op) (op_clock op) (op_captured op))
  = if succeeds op then [artifact_of op] else [].
Proof.
  unfold succeeds, artifact_of.
  destruct (is_blank (code (op_captured op))) eqn:B.
  - rewrite handleGenerate_blank by assumption. reflexivity.
  - rewrite handleGenerate_unfold by assumption.
    unfold handleGenerate_streaming. rewrite !recorded_app.
    destruct (loop_silent (fragments_of (op_provider op) (op_captured op)) [])
      as [-> _].
    destruct (completion_of (op_provider op) (op_captured op)); reflexivity.
Qed.

Lemma history_step (st : State) (op : Operation) :
  generatedArtifactsHistory (generation_step st op)
  = if succeeds op
    then artifact_of op :: generatedArtifactsHistory st
    else generatedArtifactsHistory st.
Proof.
  unfold generation_step. rewrite history_run, handleGenerate_recorded.
  destruct (succeeds op); reflexivity.
Qed.

Lemma history_session (ops : list Operation) :
  forall st,
    generatedArtifactsHistory (session st ops)
    = rev (map artifact_of (filter succeeds ops)) ++
      generatedArtifactsHistory st.
Proof.
  induction ops as [|op ops IH]; intros st; [reflexivity|].
  change (session st (op :: ops)) with (session (generation_step st op) ops).
  rewrite IH, history_step. simpl.
  destruct (succeeds op); [|reflexivity].
  simpl. rewrite <- app_assoc. reflexivity.
Qed.

(** C3.  An operation that succeeds puts its artifact in front of the
    history and any other leaves the history as it was; so after a
    session that starts with an empty history the history holds the
    artifacts of the successful operations, the most recent first, and
    its length is their number.  An operation whose stream throws
    records nothing. *)
Theorem history_records_successes :
  (forall st op,
      generatedArtifactsHistory (generation_step st op)
      = if succeeds op
        then artifact_of op :: generatedArtifactsHistory st
        else generatedArtifactsHistory st) /\
  (forall ops,
      generatedArtifactsHistory (session initialState ops)
      = rev (map artifact_of (filter succeeds ops)) /\
      length (generatedArtifactsHistory (session initialState ops))
      = length (filter succeeds ops)) /\
  (forall st op,
      if fails op
      then recorded (handleGenerate (op_provider op) (op_clock op)
                       (op_captured op)) = [] /\
           generatedArtifactsHistory (generation_step st op)
           = generatedArtifactsHistory st
      else True).
Proof.
  split; [exact history_step|]. split.
  - intros ops. rewrite history_session. simpl. rewrite app_nil_r.
    split; [reflexivity|]. rewrite length_rev, length_map. reflexivity.
  - intros st op. destruct (fails op) eqn:F; [|exact I].
    assert (S : succeeds op = false).
    { unfold fails in F. unfold succeeds.
      destruct (negb (is_blank (code (op_captured op)))); [|reflexivity].
      destruct (completion_of (op_provider op) (op_captured op));
        [discriminate | reflexivity]. }
    rewrite history_step, handleGenerate_recorded, S. split; reflexivity.
Qed.

(** C5.  When the provider's stream fails, before the first chunk or
    after any number of them, the generator throws the one fixed message,
    which says that the generation failed and to check the API key; the
    handler shows it once, in the error panel and in one error
    notification, records no artifact and leaves the history as it was,
    keeps the partial text on display, and ends with the loading flag
    down and the progress short of 100. *)
Theorem generation_failure_surfaces_one_error :
  forall gcs clock c st e,
    is_blank (code c) = false ->
    stream_failure
      (gcs (generateUnitTestsStream_request (code c) (handleGenerate_options c)))
    = Some e ->
    let acts := handleGenerate gcs clock c in
    let st' := run st acts in
    completion_of gcs c = Threw generation_error_message /\
    includes generation_error_message (js "Failed to generate tests") = true /\
    includes generation_error_message (js "check your API key") = true /\
    surfaced_errors acts = [generation_error_message] /\
    error st' = generation_error_message /\
    notifications st'
    = notifications st ++
      [ {| notification_id := notification_now clock;
           notification_message := generation_error_message;
           notification_type := NotifyError |} ] /\
    recorded acts = [] /\
    generatedArtifactsHistory st' = generatedArtifactsHistory st /\
    tests st' = concat (fragments_of gcs c) /\
    isLoading st' = false /\
    generationProgress st' <= 95.
Proof.
  intros gcs clock c st e B F acts st'.
  assert (K : completion_of gcs c = Threw generation_error_message).
  { unfold completion_of, generateUnitTestsStream. cbn [snd].
    rewrite F. reflexivity. }
  assert (A : acts
              = handleGenerate_streaming (fragments_of gcs c) ++
                [ setError generation_error_message;
                  showNotification (notification_now clock)
                    generation_error_message NotifyError;
                  setIsLoading false ]).
  { subst acts. rewrite handleGenerate_unfold by assumption.
    rewrite K. reflexivity. }
  destruct (loop_silent (fragments_of gcs c) []) as (R & N & E).
  split; [exact K|].
  split; [reflexivity|]. split; [reflexivity|].
  split.
  { rewrite A. unfold handleGenerate_streaming.
    rewrite !surfaced_errors_app, E. reflexivity. }
  split.
  { subst st'. rewrite A, run_app. reflexivity. }
  split.
  { subst st'. rewrite notifications_run, A. unfold handleGenerate_streaming.
    rewrite !notified_app, N. reflexivity. }
  split.
  { rewrite A. unfold handleGenerate_streaming.
    rewrite !recorded_app, R. reflexivity. }
  split.
  { subst st'. rewrite history_run, A. unfold handleGenerate_streaming.
    rewrite !recorded_app, R. reflexivity. }
  split.
  { subst st'. rewrite A, run_app. cbn [run fold_left reduce tests].
    unfold handleGenerate_streaming. rewrite run_app.
    rewrite loop_tests; reflexivity. }
  split.
  { subst st'. rewrite A, run_app. reflexivity. }
  subst st'. rewrite A, run_app. cbn [run fold_left reduce generationProgress].
  rewrite streaming_progress. lia.
Qed.

Local Close Scope Z_scope.

(** ** The analysis adapter *)

Lemma get_set_same (props : list (jsstring * JsValue)) (k : jsstring)
    (v : JsValue) :
  get_prop (set_prop props k v) k = Some v.
Proof.
  induction props as [|[k' w] props IH]; simpl.
  - rewrite jsstring_eqb_refl. reflexivity.
  - destruct (jsstring_eqb k' k) eqn:E; simpl; rewrite E;
      [reflexivity | exact IH].
Qed.

Lemma get_set_other (props : list (jsstring * JsValue)) (k k' : jsstring)
    (v : JsValue) :
  jsstring_eqb k k' = false ->
  get_prop (set_prop props k v) k' = get_prop props k'.
Proof.
  intros D. induction props as [|[x w] props IH]; simpl.
  - rewrite D. reflexivity.
  - destruct (jsstring_eqb x k) eqn:E; simpl.
    + apply jsstring_eqb_eq in E. subst x. rewrite D. reflexivity.
    + rewrite IH. reflexivity.
Qed.

(** The [try] block throws exactly on the outcomes listed as failures. *)
Lemma try_fails_iff (JSON_parse : jsstring -> option JsValue)
    (generateContent : AnalysisRequest -> AnalysisResponse)
    (code language : jsstring) :
  analyzeCodeWithGemini_try JSON_parse generateContent code language = None
  <-> analysis_call_fails JSON_parse
        (generateContent (analyzeCodeWithGemini_request code language)).
Proof.
  unfold analyzeCodeWithGemini_try, analysis_call_fails.
  destruct (generateContent (analyzeCodeWithGemini_request code language))
    as [e|[[|x text]|]]; try tauto.
  destruct (JSON_parse (x :: text)); split; try tauto; try discriminate.
  intros [H|H]; discriminate.
Qed.

(** The promise of the analysis is never rejected. *)
Lemma analyzeCodeWithGemini_resolves
    (JSON_parse : jsstring -> option JsValue)
    (generateContent : AnalysisRequest -> AnalysisResponse)
    (code language : jsstring) :
  exists report,
    analyzeCodeWithGemini JSON_parse generateContent code language
    = Resolved report.
Proof.
  unfold analyzeCodeWithGemini.
  destruct (analyzeCodeWithGemini_try JSON_parse generateContent code language);
    eauto.
Qed.

(** C4.  When the provider call throws, answers without text or with
    the empty text, or answers with a text that [JSON.parse] rejects, the
    promise resolves (it is not rejected) to the fallback report: the
    three scores 0, the one bug "Analysis failed" at line 0 of severity
    low, no security finding, no dependency, a coverage estimate of
    zeros, and the suggestions "Check API Key" and "Ensure code is
    valid". *)
Theorem analysis_failure_gives_fallback :
  forall (JSON_parse : jsstring -> option JsValue)
         (generateContent : AnalysisRequest -> AnalysisResponse)
         (code language : jsstring),
    analysis_call_fails JSON_parse
      (generateContent (analyzeCodeWithGemini_request code language)) ->
    analyzeCodeWithGemini JSON_parse generateContent code language
    = Resolved fallbackReport /\
    report_field fallbackReport (js "complexityScore") = Some (JNum 0) /\
    report_field fallbackReport (js "readabilityScore") = Some (JNum 0) /\
    report_field fallbackReport (js "maintainabilityIndex") = Some (JNum 0) /\
    report_field fallbackReport (js "potentialBugs")
    = Some (JArr [ JObj [ (js "description", JStr (js "Analysis failed"));
                          (js "line", JNum 0);
                          (js "severity", JStr (js "low")) ] ]) /\
    report_field fallbackReport (js "securityVulnerabilities") = Some (JArr []) /\
    report_field fallbackReport (js "dependencies") = Some (JArr []) /\
    report_field fallbackReport (js "testCoverageEstimate")
    = Some (JObj [ (js "lines", JNum 0); (js "branches", JNum 0);
                   (js "functions", JNum 0); (js "total", JNum 0) ]) /\
    report_field fallbackReport (js "suggestedImprovements")
    = Some (JArr [ JStr (js "Check API Key"); JStr (js "Ensure code is valid") ]).
Proof.
  intros JSON_parse generateContent code language H.
  apply try_fails_iff in H.
  split.
  - unfold analyzeCodeWithGemini. rewrite H. reflexivity.
  - repeat split.
Qed.

(** C9, as amended.  Every report has an empty [dependencies] list.  On
    the success path [externalReportUrls] is the empty list too, and both
    are set after the provider's data, whatever it holds under these
    keys, while every other field is the provider's; the fallback report
    has no [externalReportUrls] field. *)
Theorem report_local_fields :
  forall (JSON_parse : jsstring -> option JsValue)
         (generateContent : AnalysisRequest -> AnalysisResponse)
         (code language : jsstring),
    exists report,
      analyzeCodeWithGemini JSON_parse generateContent code language
      = Resolved report /\
      report_field report (js "dependencies") = Some (JArr []) /\
      match generateContent (analyzeCodeWithGemini_request code language) with
      | Response (Some (c :: text)) =>
          match JSON_parse (c :: text) with
          | Some data =>
              report_field report (js "externalReportUrls") = Some (JArr []) /\
              forall key,
                jsstring_eqb (js "dependencies") key = false ->
                jsstring_eqb (js "externalReportUrls") key = false ->
                report_field report key = get_prop (spread data) key
          | None =>
              report = fallbackReport /\
              report_field report (js "externalReportUrls") = None
          end
      | _ =>
          report = fallbackReport /\
          report_field report (js "externalReportUrls") = None
      end.
Proof.
  intros JSON_parse generateContent code language.
  unfold analyzeCodeWithGemini, analyzeCodeWithGemini_try.
  destruct (generateContent (analyzeCodeWithGemini_request code language))
    as [e|[[|x text]|]];
    try solve [exists fallbackReport; repeat split].
  destruct (JSON_parse (x :: text)) as [data|];
    [|solve [exists fallbackReport; repeat split]].
  eexists. split; [reflexivity|]. cbn [report_field]. split; [|split].
  - rewrite get_set_other by reflexivity. apply get_set_same.
  - apply get_set_same.
  - intros key D E. rewrite !get_set_other by assumption. reflexivity.
Qed.

(** C9, as stated, fails on the fallback path: with the provider out of
    reach the report is the fallback report, which has no
    [externalReportUrls] field. *)
Lemma fallback_lacks_externalReportUrls :
  let result :=
    analyzeCodeWithGemini parse_nothing analysis_unreachable
      (code sample_captured) (js "typescript") in
  result = Resolved fallbackReport /\
  report_field fallbackReport (js "externalReportUrls") = None /\
  ~ (exists report,
        result = Resolved report /\
        report_field report (js "dependencies") = Some (JArr []) /\
        report_field report (js "externalReportUrls") = Some (JArr [])).
Proof.
  split; [reflexivity|]. split; [reflexivity|].
  intros [report [R [_ E]]].
  assert (report = fallbackReport) by (injection R as <-; reflexivity).
  subst report. discriminate E.
Qed.

(** ** The text transform of download and copy *)

Local Open Scope nat_scope.

Lemma startsWith_length (s p : jsstring) :
  startsWith s p = true -> length p <= length s.
Proof.
  intros H. apply startsWith_spec in H. destruct H as [r ->].
  rewrite length_app. lia.
Qed.

(** *** The matcher on the two expressions *)

Lemma word_not_line_feed (c : N) : isWordChar c = true -> (c =? 10)%N = false.
Proof.
  intros W. destruct (N.eqb_spec c 10) as [->|]; [discriminate W | reflexivity].
Qed.

(** [\w+\n] at the head of [s]. *)
Lemma plus_loop_tag (s : jsstring) :
  forall pos,
    plus_loop isWordChar
      (fun pos' s' => rmatch (Chr 10) pos' s' (fun _ rest => Some rest)) pos s
    = match s with
      | c :: _ =>
          if isWordChar c then
            match skipWord s with
            | c' :: rest => if (c' =? 10)%N then Some rest else None
            | [] => None
            end
          else None
      | [] => None
      end.
Proof.
  induction s as [|c s IH]; intros pos; [reflexivity|].
  cbn [plus_loop skipWord]. destruct (isWordChar c) eqn:W; [|reflexivity].
  rewrite IH. destruct s as [|c2 s]; [reflexivity|].
  cbn [skipWord rmatch]. destruct (isWordChar c2) eqn:W2.
  - rewrite (word_not_line_feed c2 W2).
    destruct (skipWord s) as [|c' rest]; [reflexivity|].
    destruct (c' =? 10)%N; reflexivity.
  - reflexivity.
Qed.

Lemma rmatch_leadingFence_start (s : jsstring) :
  rmatch leadingFence 0 s (fun _ rest => Some rest)
  = if startsWith s fence then Some (skipLanguageTag (skipn 3 s)) else None.
Proof.
  destruct s as [|a [|b [|c rest]]]; try reflexivity;
    unfold leadingFence, fence; cbn [rmatch Nat.eqb startsWith skipn];
    destruct (a =? 96)%N; try reflexivity;
    destruct (b =? 96)%N; try reflexivity;
    destruct (c =? 96)%N; try reflexivity.
  cbn [andb]. rewrite plus_loop_tag. unfold skipLanguageTag.
  destruct rest as [|x rest]; [reflexivity|].
  destruct (isWordChar x); [|reflexivity].
  destruct (skipWord (x :: rest)) as [|c' r]; [reflexivity|].
  destruct (c' =? 10)%N; reflexivity.
Qed.

Lemma search_leadingFence_later (s : jsstring) :
  forall pos, search leadingFence (S pos) s = None.
Proof.
  induction s as [|c s IH]; intros pos; [reflexivity|].
  change (search leadingFence (S pos) (c :: s))
    with (search leadingFence (S (S pos)) s).
  apply IH.
Qed.

Lemma replace_leadingFence (s : jsstring) :
  replace leadingFence s = replaceLeadingFence s.
Proof.
  unfold replace, replaceLeadingFence.
  destruct s as [|c s].
  - reflexivity.
  - cbn [search]. rewrite rmatch_leadingFence_start.
    destruct (startsWith (c :: s) fence); [reflexivity|].
    rewrite search_leadingFence_later. reflexivity.
Qed.

Lemma rmatch_trailingFence (s : jsstring) (pos : nat) :
  rmatch trailingFence pos s (fun _ rest => Some rest)
  = if jsstring_eqb s fence then Some [] else None.
Proof.
  destruct s as [|a [|b [|c [|d s]]]]; try reflexivity;
    unfold trailingFence, fence; cbn [rmatch jsstring_eqb];
    destruct (a =? 96)%N; try reflexivity;
    destruct (b =? 96)%N; try reflexivity;
    destruct (c =? 96)%N; reflexivity.
Qed.

Lemma endsWith_spec (s p : jsstring) :
  endsWith s p = true <-> exists before, s = before ++ p.
Proof.
  unfold endsWith. rewrite startsWith_spec. split.
  - intros [r H]. exists (rev r).
    rewrite <- (rev_involutive s), H, rev_app_distr, rev_involutive.
    reflexivity.
  - intros [b ->]. exists (rev b). apply rev_app_distr.
Qed.

Lemma endsWith_cons (c : N) (s p : jsstring) :
  c :: s <> p -> endsWith (c :: s) p = endsWith s p.
Proof.
  intros D. apply eq_true_iff_eq. rewrite !endsWith_spec. split.
  - intros [[|x b] H].
    + contradiction.
    + injection H as _ H. exists b. exact H.
  - intros [b ->]. exists (c :: b). reflexivity.
Qed.

Lemma search_trailingFence (s : jsstring) :
  forall pos,
    search trailingFence pos s
    = if endsWith s fence then Some (pos + (length s - 3), []) else None.
Proof.
  induction s as [|c s IH]; intros pos; [reflexivity|].
  cbn [search]. rewrite rmatch_trailingFence.
  destruct (jsstring_eqb (c :: s) fence) eqn:E.
  - apply jsstring_eqb_eq in E. rewrite E. simpl.
    rewrite Nat.add_0_r. reflexivity.
  - assert (D : c :: s <> fence).
    { intros H. rewrite H in E. discriminate E. }
    rewrite IH, (endsWith_cons c s fence D).
    destruct (endsWith s fence) eqn:F; [|reflexivity].
    unfold endsWith in F. apply startsWith_length in F.
    rewrite !length_rev in F. simpl in F.
    f_equal. f_equal. simpl length. lia.
Qed.

Lemma replace_trailingFence (s : jsstring) :
  replace trailingFence s = replaceTrailingFence s.
Proof.
  unfold replace, replaceTrailingFence. rewrite search_trailingFence.
  destruct (endsWith s fence); [|reflexivity].
  simpl. apply app_nil_r.
Qed.

(** The transform through the closed forms. *)
Lemma cleanCodeForDownload_closed (code : jsstring) :
  cleanCodeForDownload code
  = trim (replaceTrailingFence (replaceLeadingFence code)).
Proof.
  unfold cleanCodeForDownload.
  rewrite replace_leadingFence, replace_trailingFence. reflexivity.
Qed.

(** *** Trimming and lengths *)

Lemma trimStart_length (s : jsstring) : length (trimStart s) <= length s.
Proof.
  induction s as [|c s IH]; simpl; [lia|].
  destruct (isWhiteSpace c); simpl; lia.
Qed.

Lemma trimStart_idem (s : jsstring) : trimStart (trimStart s) = trimStart s.
Proof.
  induction s as [|c s IH]; [reflexivity|]. simpl.
  destruct (isWhiteSpace c) eqn:W; [exact IH|]. simpl. rewrite W.
  reflexivity.
Qed.

Lemma trimStart_snoc (l : jsstring) (c : N) :
  isWhiteSpace c = false -> trimStart (l ++ [c]) = trimStart l ++ [c].
Proof.
  intros W. induction l as [|d l IH]; simpl.
  - rewrite W. reflexivity.
  - destruct (isWhiteSpace d); [exact IH | reflexivity].
Qed.

Lemma trimEnd_cons (c : N) (u : jsstring) :
  isWhiteSpace c = false -> trimEnd (c :: u) = c :: trimEnd u.
Proof.
  intros W. unfold trimEnd. simpl rev at 2.
  rewrite trimStart_snoc by assumption. apply rev_unit.
Qed.

Lemma trimEnd_length (s : jsstring) : length (trimEnd s) <= length s.
Proof.
  unfold trimEnd. rewrite length_rev.
  pose proof (trimStart_length (rev s)) as H. rewrite length_rev in H.
  exact H.
Qed.

Lemma trimEnd_idem (s : jsstring) : trimEnd (trimEnd s) = trimEnd s.
Proof.
  unfold trimEnd. rewrite rev_involutive, trimStart_idem. reflexivity.
Qed.

(** Trimming the end of a text with no white space in front leaves none
    in front. *)
Lemma trimStart_trimEnd (u : jsstring) :
  trimStart u = u -> trimStart (trimEnd u) = trimEnd u.
Proof.
  destruct u as [|c u]; intros H; [reflexivity|].
  destruct (isWhiteSpace c) eqn:W.
  - exfalso. simpl in H. rewrite W in H.
    pose proof (trimStart_length u) as L. rewrite H in L. simpl in L. lia.
  - rewrite trimEnd_cons by assumption. simpl. rewrite W. reflexivity.
Qed.

Lemma trim_idem (s : jsstring) : trim (trim s) = trim s.
Proof.
  unfold trim.
  rewrite (trimStart_trimEnd (trimStart s)) by apply trimStart_idem.
  apply trimEnd_idem.
Qed.

Lemma trim_length (s : jsstring) : length (trim s) <= length s.
Proof.
  unfold trim. pose proof (trimEnd_length (trimStart s)).
  pose proof (trimStart_length s). lia.
Qed.

Lemma skipWord_length (s : jsstring) : length (skipWord s) <= length s.
Proof.
  induction s as [|c s IH]; simpl; [lia|].
  destruct (isWordChar c); simpl; lia.
Qed.

Lemma skipLanguageTag_length (s : jsstring) :
  length (skipLanguageTag s) <= length s.
Proof.
  unfold skipLanguageTag. destruct s as [|c s]; [simpl; lia|].
  destruct (isWordChar c); [|lia].
  pose proof (skipWord_length (c :: s)) as L.
  destruct (skipWord (c :: s)) as [|d rest]; [lia|].
  destruct (d =? 10)%N; simpl in *; lia.
Qed.

Lemma replaceLeadingFence_length (s : jsstring) :
  length (replaceLeadingFence s) <= length s.
Proof.
  unfold replaceLeadingFence. destruct (startsWith s fence); [|lia].
  pose proof (skipLanguageTag_length (skipn 3 s)) as L.
  rewrite length_skipn in L. lia.
Qed.

Lemma replaceLeadingFence_shrinks (s : jsstring) :
  startsWith s fence = true -> length (replaceLeadingFence s) < length s.
Proof.
  intros H. unfold replaceLeadingFence. rewrite H.
  apply startsWith_length in H. simpl in H.
  pose proof (skipLanguageTag_length (skipn 3 s)) as L.
  rewrite length_skipn in L. lia.
Qed.

Lemma replaceTrailingFence_length (s : jsstring) :
  length (replaceTrailingFence s) <= length s.
Proof.
  unfold replaceTrailingFence. destruct (endsWith s fence); [|lia].
  rewrite length_firstn. lia.
Qed.

Lemma replaceTrailingFence_shrinks (s : jsstring) :
  endsWith s fence = true -> length (replaceTrailingFence s) < length s.
Proof.
  intros H. unfold replaceTrailingFence. rewrite H.
  unfold endsWith in H. apply startsWith_length in H.
  rewrite !length_rev in H. simpl in H. rewrite length_firstn. lia.
Qed.

(** C8, as amended.  Cleaning a cleaned text returns it unchanged exactly
    when the cleaned text neither starts nor ends with three backticks;
    in that case a second pass strips nothing and trims nothing. *)
Theorem cleanCodeForDownload_stable_iff :
  forall code : jsstring,
    let cleaned := cleanCodeForDownload code in
    cleanCodeForDownload cleaned = cleaned
    <-> startsWith cleaned fence = false /\ endsWith cleaned fence = false.
Proof.
  intros code cleaned. split.
  - intros H.
    assert (L : length (cleanCodeForDownload cleaned) = length cleaned)
      by (rewrite H; reflexivity).
    rewrite cleanCodeForDownload_closed in L.
    pose proof (trim_length
                  (replaceTrailingFence (replaceLeadingFence cleaned))) as T.
    pose proof (replaceTrailingFence_length (replaceLeadingFence cleaned)) as E.
    pose proof (replaceLeadingFence_length cleaned) as S.
    destruct (startsWith cleaned fence) eqn:A.
    + pose proof (replaceLeadingFence_shrinks cleaned A). lia.
    + split; [reflexivity|].
      destruct (endsWith cleaned fence) eqn:B; [|reflexivity].
      assert (R : replaceLeadingFence cleaned = cleaned)
        by (unfold replaceLeadingFence; rewrite A; reflexivity).
      rewrite R in *.
      pose proof (replaceTrailingFence_shrinks cleaned B). lia.
  - intros [A B]. rewrite cleanCodeForDownload_closed.
    unfold replaceLeadingFence. rewrite A.
    unfold replaceTrailingFence. rewrite B.
    subst cleaned. rewrite cleanCodeForDownload_closed. apply trim_idem.
Qed.

(** C8, as stated, fails: a fenced answer that starts with a line feed
    keeps its opening fence in the first pass, because the fence is only
    looked for at the very start, and loses it in the second. *)
Lemma cleanCodeForDownload_not_idempotent :
  let answer := nl ++ js "```ts" ++ nl ++ js "x" ++ nl ++ js "```" in
  cleanCodeForDownload answer = js "```ts" ++ nl ++ js "x" /\
  cleanCodeForDownload (cleanCodeForDownload answer) = js "x" /\
  cleanCodeForDownload (cleanCodeForDownload answer)
  <> cleanCodeForDownload answer.
Proof.
  split; [reflexivity|]. split; [reflexivity|].
  vm_compute. discriminate.
Qed.

(** ** Instances *)

(** C2 at the sample operation: three fragments, then the end of the
    stream. *)
Lemma progress_tracker_sample :
  is_blank (code sample_captured) = false /\
  progress_trace initialState
    (handleGenerate provider_streaming sample_clock sample_captured)
  = [0; 0; 5; 5; 10; 10; 15; 100; 100; 100; 100; 100]%Z /\
  chain Z.le
    (progress_trace initialState
       (handleGenerate provider_streaming sample_clock sample_captured)) /\
  generationProgress
    (run initialState
       (handleGenerate provider_streaming sample_clock sample_captured))
  = 100%Z.
Proof.
  split; [reflexivity|]. split; [reflexivity|].
  destruct (progress_tracker provider_streaming sample_clock sample_captured
              initialState eq_refl) as (_ & M & _ & _ & _ & F & _).
  split; [exact M | exact F].
Defined.

(** C5 at the sample operation with the failing provider. *)
Lemma generation_failure_sample :
  is_blank (code sample_captured) = false /\
  error (run initialState
           (handleGenerate provider_failing sample_clock sample_captured))
  = generation_error_message /\
  generatedArtifactsHistory
    (run initialState
       (handleGenerate provider_failing sample_clock sample_captured))
  = [] /\
  tests (run initialState
           (handleGenerate provider_failing sample_clock sample_captured))
  = js "a".
Proof.
  split; [reflexivity|].
  destruct (generation_failure_surfaces_one_error provider_failing
              sample_clock sample_captured initialState
              {| sdk_message := js "fetch failed" |} eq_refl eq_refl)
    as (_ & _ & _ & _ & E & _ & _ & H & T & _).
  split; [exact E|]. split; [exact H | exact T].
Defined.

(** C4 with the provider out of reach. *)
Lemma analysis_failure_sample :
  analysis_call_fails parse_nothing
    (analysis_unreachable
       (analyzeCodeWithGemini_request (code sample_captured)
          (js "typescript"))) /\
  analyzeCodeWithGemini parse_nothing analysis_unreachable
    (code sample_captured) (js "typescript")
  = Resolved fallbackReport.
Proof.
  split; [exact I|].
  apply (analysis_failure_gives_fallback parse_nothing analysis_unreachable
           (code sample_captured) (js "typescript") I).
Defined.

(* ================================================================== *)
(** * Further properties of the component and the service              *)
(* ================================================================== *)

(** ** The whole of one generation operation *)

Lemma loop_state (fs : list jsstring) :
  forall acc st,
    tests st = acc ->
    (generationProgress st <= 95)%Z ->
    run st (fst (handleGenerate_loop acc fs))
    = {| tests := acc ++ concat fs;
         isLoading := isLoading st;
         error := error st;
         generationProgress :=
           Z.min (generationProgress st + 5 * Z.of_nat (length fs)) 95;
         generatedArtifactsHistory := generatedArtifactsHistory st;
         notifications := notifications st |}.
Proof.
  induction fs as [|f fs IH]; intros acc st T P.
  - destruct st; simpl in *. subst. rewrite app_nil_r. f_equal. lia.
  - rewrite handleGenerate_loop_cons. cbn [fst].
    change (run st (?a :: ?b :: ?r)) with (run (reduce (reduce st a) b) r).
    rewrite (IH (acc ++ f)); [|reflexivity|simpl; lia].
    cbn [reduce tests isLoading error generationProgress
         generatedArtifactsHistory notifications concat].
    rewrite <- app_assoc. f_equal.
    change (length (f :: fs)) with (S (length fs)). lia.
Qed.

(** The state an operation that issues its request ends in. *)
Lemma handleGenerate_final
    (gcs : StreamRequest -> StreamResponse) (clock : Clock) (c : Captured)
    (st : State) :
  is_blank (code c) = false ->
  run st (handleGenerate gcs clock c)
  = {| tests := concat (fragments_of gcs c);
       isLoading := false;
       error := match completion_of gcs c with
                | Returned => []
                | Threw message => message
                end;
       generationProgress :=
         match completion_of gcs c with
         | Returned => 100
         | Threw _ =>
             Z.min (5 * Z.of_nat (length (fragments_of gcs c))) 95
         end;
       generatedArtifactsHistory :=
         match completion_of gcs c with
         | Returned =>
             handleGenerate_artifact clock c (handleGenerate_options c)
               (concat (fragments_of gcs c))
             :: generatedArtifactsHistory st
         | Threw _ => generatedArtifactsHistory st
         end;
       notifications :=
         notifications st ++
         [ match completion_of gcs c with
           | Returned =>
               {| notification_id := notification_now clock;
                  notification_message := js "Tests generated successfully!";
                  notification_type := NotifySuccess |}
           | Threw message =>
               {| notification_id := notification_now clock;
                  notification_message := message;
                  notification_type := NotifyError |}
           end ] |}.
Proof.
  intros B. rewrite handleGenerate_unfold by assumption.
  unfold handleGenerate_streaming. rewrite !run_app.
  rewrite (loop_state (fragments_of gcs c) []); [|reflexivity|simpl; lia].
  destruct (completion_of gcs c); simpl; f_equal; lia.
Qed.

Lemma trimStart_head (s u : jsstring) (c : N) :
  trimStart s = c :: u -> isWhiteSpace c = false.
Proof.
  induction s as [|d s IH]; simpl; [discriminate|].
  destruct (isWhiteSpace d) eqn:W; [exact IH|].
  intros H. injection H as -> _. exact W.
Qed.

Lemma trimStart_nil_iff (s : jsstring) :
  trimStart s = [] <-> forallb isWhiteSpace s = true.
Proof.
  induction s as [|c s IH]; simpl; [tauto|].
  destruct (isWhiteSpace c); simpl; [exact IH|].
  split; discriminate.
Qed.

(** A text trims to nothing exactly when it holds white space only. *)
Lemma trim_nil_iff (s : jsstring) :
  trim s = [] <-> forallb isWhiteSpace s = true.
Proof.
  rewrite <- trimStart_nil_iff. unfold trim. split.
  - intros H. destruct (trimStart s) as [|c u] eqn:E; [reflexivity|].
    rewrite trimEnd_cons in H by (eapply trimStart_head; exact E).
    discriminate H.
  - intros ->. reflexivity.
Qed.

(** X1.  [handleGenerate] makes no call at all, whatever the provider,
    exactly when the source text is empty or holds white space only; in
    every other case it begins with the four calls of the reset. *)
Theorem handleGenerate_skips_blank_source :
  forall gcs clock c,
    (handleGenerate gcs clock c = []
     <-> forallb isWhiteSpace (code c) = true) /\
    (handleGenerate gcs clock c = [] \/
     firstn 4 (handleGenerate gcs clock c) = handleGenerate_reset).
Proof.
  intros gcs clock c. rewrite <- trim_nil_iff.
  destruct (is_blank (code c)) eqn:B.
  - assert (T : trim (code c) = []).
    { unfold is_blank in B. destruct (trim (code c)); [reflexivity|discriminate]. }
    rewrite (handleGenerate_blank gcs clock c B). tauto.
  - assert (T : trim (code c) <> []).
    { unfold is_blank in B. destruct (trim (code c)); [discriminate|].
      discriminate. }
    rewrite (handleGenerate_unfold gcs clock c B).
    unfold handleGenerate_streaming. rewrite <- app_assoc.
    split; [|right; reflexivity].
    split; [discriminate | contradiction].
Qed.

(** The calls that leave the loading flag alone. *)
Lemma states_keep_loading (acts : list Action) :
  Forall (fun a => match a with setIsLoading _ => False | _ => True end) acts ->
  forall st,
    isLoading st = true ->
    Forall (fun s => isLoading s = true) (states st acts).
Proof.
  induction 1 as [|a acts A _ IH]; intros st L; [constructor|].
  assert (L' : isLoading (reduce st a) = true)
    by (destruct a; simpl; try exact L; contradiction).
  constructor; [exact L'|]. apply IH. exact L'.
Qed.

Lemma loop_keeps_loading (fs : list jsstring) :
  forall acc,
    Forall (fun a => match a with setIsLoading _ => False | _ => True end)
      (fst (handleGenerate_loop acc fs)).
Proof.
  induction fs as [|f fs IH]; intros acc; [constructor|].
  rewrite handleGenerate_loop_cons. cbn [fst].
  constructor; [exact I|]. constructor; [exact I|]. apply IH.
Qed.

Lemma removelast_states_snoc (st : State) (acts : list Action) (z : Action) :
  removelast (states st (acts ++ [z])) = states st acts.
Proof.
  rewrite states_app. cbn [states]. apply removelast_last.
Qed.

(** X2.  In an operation that issues its request the loading flag is up
    after every call but the last, whatever the flag was before and
    however the stream ends, and down after the last (the [finally]). *)
Theorem loading_flag_brackets_operation :
  forall gcs clock c st,
    is_blank (code c) = false ->
    let trace := states st (handleGenerate gcs clock c) in
    Forall (fun s => isLoading s = true) (removelast trace) /\
    isLoading (run st (handleGenerate gcs clock c)) = false /\
    removelast trace <> [].
Proof.
  intros gcs clock c st B trace. subst trace.
  assert (E : removelast (states st (handleGenerate gcs clock c))
              = states st
                  (setIsLoading true ::
                   [ setError []; setTests []; setGenerationProgress 0 ] ++
                   fst (handleGenerate_loop [] (fragments_of gcs c)) ++
                   handleGenerate_finish clock c (handleGenerate_options c)
                     (concat (fragments_of gcs c)) (completion_of gcs c))).
  { rewrite handleGenerate_unfold by assumption.
    unfold handleGenerate_streaming, handleGenerate_reset.
    rewrite !app_assoc. rewrite removelast_states_snoc.
    rewrite <- !app_assoc. reflexivity. }
  rewrite E. split; [|split].
  - cbn [states]. constructor; [reflexivity|].
    apply states_keep_loading; [|reflexivity].
    apply Forall_app. split; [repeat constructor|].
    apply Forall_app. split; [apply loop_keeps_loading|].
    destruct (completion_of gcs c); repeat constructor.
  - rewrite handleGenerate_final by assumption. reflexivity.
  - discriminate.
Qed.

Lemma completion_cases
    (gcs : StreamRequest -> StreamResponse) (c : Captured) :
  completion_of gcs c
  = match stream_failure
            (gcs (generateUnitTestsStream_request (code c)
                    (handleGenerate_options c))) with
    | None => Returned
    | Some _ => Threw generation_error_message
    end.
Proof. reflexivity. Qed.

(** X3.  When the stream ends without an error the operation leaves the
    whole text on display, no error, the loading flag down and the
    progress at 100, shows one success notification, and puts in front of
    the history an artifact that holds the text on display (fences
    included), the source text and the options of the request. *)
Theorem successful_generation_outcome :
  forall gcs clock c st,
    is_blank (code c) = false ->
    stream_failure
      (gcs (generateUnitTestsStream_request (code c) (handleGenerate_options c)))
    = None ->
    let st' := run st (handleGenerate gcs clock c) in
    tests st' = concat (fragments_of gcs c) /\
    error st' = [] /\
    isLoading st' = false /\
    generationProgress st' = 100%Z /\
    (exists artifact,
        generatedArtifactsHistory st'
        = artifact :: generatedArtifactsHistory st /\
        generatedTests artifact = tests st' /\
        sourceCode artifact = code c /\
        optionsUsed artifact = handleGenerate_options c /\
        id artifact = artifact_now clock /\
        timestamp artifact = artifact_iso clock /\
        status artifact = StatusGenerated /\
        reviewStatus artifact = Some ReviewPending) /\
    notifications st'
    = notifications st ++
      [ {| notification_id := notification_now clock;
           notification_message := js "Tests generated successfully!";
           notification_type := NotifySuccess |} ].
Proof.
  intros gcs clock c st B F st'. subst st'.
  rewrite handleGenerate_final by assumption.
  rewrite completion_cases, F. cbn [tests error isLoading generationProgress
    generatedArtifactsHistory notifications].
  repeat split.
  eexists. repeat split.
Qed.

Lemma logged_app (a b : list Action) : logged (a ++ b) = logged a ++ logged b.
Proof.
  induction a as [|x a IH]; [reflexivity|].
  destruct x; simpl; rewrite IH; reflexivity.
Qed.

Lemma loop_logs_nothing (fs : list jsstring) :
  forall acc, logged (fst (handleGenerate_loop acc fs)) = [].
Proof.
  induction fs as [|f fs IH]; intros acc; [reflexivity|].
  rewrite handleGenerate_loop_cons. simpl. apply IH.
Qed.

(** X4.  An operation writes the audit line of user_cg_123 and
    GENERATE_TESTS exactly when it succeeds, shows one notification
    exactly when it issues its request, and shows the error message
    exactly when its stream throws; on a blank source and on a failure it
    writes no audit line. *)
Theorem audit_and_notification_accounting :
  forall op : Operation,
    let acts :=
      handleGenerate (op_provider op) (op_clock op) (op_captured op) in
    logged acts
    = (if succeeds op then [ (js "user_cg_123", js "GENERATE_TESTS") ] else []) /\
    length (notified acts)
    = (if is_blank (code (op_captured op)) then 0 else 1) /\
    surfaced_errors acts
    = (if fails op then [ generation_error_message ] else []).
Proof.
  intros op acts. subst acts. unfold succeeds, fails.
  destruct (is_blank (code (op_captured op))) eqn:B.
  - rewrite handleGenerate_blank by assumption. repeat split.
  - rewrite handleGenerate_unfold by assumption.
    unfold handleGenerate_streaming.
    rewrite !logged_app, !notified_app, !surfaced_errors_app, !length_app.
    rewrite loop_logs_nothing.
    destruct (loop_silent (fragments_of (op_provider op) (op_captured op)) [])
      as (_ & -> & ->).
    rewrite completion_cases.
    destruct (stream_failure _); repeat split.
Qed.

Lemma concat_yielded (chunks : list (option jsstring)) :
  concat (yielded chunks) = concat (texts chunks).
Proof.
  induction chunks as [|[[|x s]|] chunks IH]; simpl; rewrite ?IH; reflexivity.
Qed.

Lemma streaming_state (st : State) (fs : list jsstring) :
  run st (handleGenerate_streaming fs)
  = {| tests := concat fs;
       isLoading := true;
       error := [];
       generationProgress := Z.min (5 * Z.of_nat (length fs)) 95;
       generatedArtifactsHistory := generatedArtifactsHistory st;
       notifications := notifications st |}.
Proof.
  unfold handleGenerate_streaming. rewrite run_app.
  rewrite (loop_state fs []); [|reflexivity|simpl; lia].
  simpl. f_equal.
Qed.

(** X5.  A chunk whose text is missing or empty yields the empty
    fragment: it leaves the text on display as it was and still moves the
    progress by one step.  So the text after the loop is the
    concatenation of the texts that are there, and the progress counts
    every chunk. *)
Theorem textless_chunks_move_progress_only :
  forall (chunks : list (option jsstring)) (st : State),
    let st' := run st (handleGenerate_streaming (yielded chunks)) in
    length (yielded chunks) = length chunks /\
    tests st' = concat (texts chunks) /\
    generationProgress st' = Z.min (5 * Z.of_nat (length chunks)) 95 /\
    (forall acc,
        handleGenerate_loop acc (yielded [None])
        = ([setTests acc; setGenerationProgress_step], acc) /\
        handleGenerate_loop acc (yielded [Some []])
        = ([setTests acc; setGenerationProgress_step], acc)).
Proof.
  intros chunks st st'. subst st'. rewrite streaming_state.
  cbn [tests generationProgress].
  assert (L : length (yielded chunks) = length chunks)
    by (unfold yielded; apply length_map).
  rewrite L, concat_yielded.
  split; [reflexivity|]. split; [reflexivity|]. split; [reflexivity|].
  intros acc. simpl. rewrite app_nil_r. split; reflexivity.
Qed.

(** X6.  While the fragments arrive the output pane shows the spinner
    with the progress bar as long as all the text received is empty, and
    from the first code unit on it shows the text alone: no progress
    value is displayed once text is there. *)
Theorem pane_while_streaming :
  forall (st : State) (fs : list jsstring),
    testsPane (run st (handleGenerate_streaming fs))
    = if is_empty (concat fs)
      then [ PaneLoading (Z.min (5 * Z.of_nat (length fs)) 95) ]
      else [ PaneTests (concat fs) ].
Proof.
  intros st fs. rewrite streaming_state. unfold testsPane.
  cbn [tests isLoading error generationProgress].
  destruct (concat fs); reflexivity.
Qed.

(** X7.  After an operation that issued its request the pane shows the
    error message when the stream threw, then the text received if there
    is any, and the placeholder only when the stream ended with no text
    at all; Copy and Download are offered exactly when there is text,
    after a failure as well, and hand on the cleaned text. *)
Theorem pane_after_operation :
  forall gcs clock c st,
    is_blank (code c) = false ->
    let st' := run st (handleGenerate gcs clock c) in
    let text := concat (fragments_of gcs c) in
    testsPane st'
    = match completion_of gcs c with
      | Returned =>
          if is_empty text then [ PanePlaceholder ] else [ PaneTests text ]
      | Threw _ =>
          PaneError generation_error_message ::
          (if is_empty text then [] else [ PaneTests text ])
      end /\
    offersCopyDownload st'
    = if is_empty text then None else Some (cleanCodeForDownload text).
Proof.
  intros gcs clock c st B st' text. subst st' text.
  rewrite handleGenerate_final by assumption.
  unfold testsPane, offersCopyDownload.
  cbn [tests isLoading error generationProgress].
  rewrite completion_cases.
  destruct (stream_failure _);
    destruct (concat (fragments_of gcs c)); split; reflexivity.
Qed.

(** ** The request of the generator *)

(** X8.  The request is built from the framework, the assertion library,
    the language, the two flags for mocks and edge cases, the strategy,
    the custom instructions, the provider and the three numbers of the
    configuration; options that agree on these give the same request and
    the same run of the generator, whatever their test types, their
    [includeStubs], [generateNegativeTests] and [modelName]. *)
Theorem request_ignores_unread_options :
  forall (gcs : StreamRequest -> StreamResponse) (code : jsstring)
         (o1 o2 : TestGenerationOptions),
    targetFramework o1 = targetFramework o2 ->
    assertionLibrary o1 = assertionLibrary o2 ->
    codeLanguage o1 = codeLanguage o2 ->
    includeMocks o1 = includeMocks o2 ->
    generateEdgeCases o1 = generateEdgeCases o2 ->
    generationStrategy o1 = generationStrategy o2 ->
    customPromptInstructions o1 = customPromptInstructions o2 ->
    provider (aiModelConfig o1) = provider (aiModelConfig o2) ->
    temperature (aiModelConfig o1) = temperature (aiModelConfig o2) ->
    topP (aiModelConfig o1) = topP (aiModelConfig o2) ->
    maxTokens (aiModelConfig o1) = maxTokens (aiModelConfig o2) ->
    generateUnitTestsStream_request code o1
    = generateUnitTestsStream_request code o2 /\
    generateUnitTestsStream gcs code o1 = generateUnitTestsStream gcs code o2.
Proof.
  intros gcs code o1 o2 F A L M E S C P T K X.
  assert (R : generateUnitTestsStream_request code o1
              = generateUnitTestsStream_request code o2).
  { unfold generateUnitTestsStream_request, generateUnitTestsStream_modelName,
      generateUnitTestsStream_prompt, generateUnitTestsStream_systemPrompt.
    rewrite F, A, L, M, E, S, C, P, T, K, X. reflexivity. }
  split; [exact R|]. unfold generateUnitTestsStream. rewrite R. reflexivity.
Qed.

(** X9.  The prompt states one directive for each of the two flags: to
    include mocks or to assume real dependencies, and to cover edge cases
    or to focus on happy paths. *)
Theorem prompt_states_directives :
  forall (code : jsstring) (options : TestGenerationOptions),
    let prompt := contents_text (generateUnitTestsStream_request code options) in
    includes prompt
      (if includeMocks options
       then js "Include mocks for external dependencies."
       else js "Assume real dependencies where safe.") = true /\
    includes prompt
      (if generateEdgeCases options
       then js "Cover edge cases and boundary conditions rigorously."
       else js "Focus on happy paths.") = true.
Proof.
  intros code options prompt. subst prompt.
  unfold generateUnitTestsStream_request, contents_text,
    generateUnitTestsStream_prompt.
  split; apply includes_spec, contains_left;
    unfold generateUnitTestsStream_systemPrompt; find_piece.
Qed.

(** ** The analysis adapter and its caller *)

(** X10.  The fallback report is the result exactly when the call
    failed: a report built from a reply always has
    [externalReportUrls], which the fallback report lacks, so a caller
    can tell the two apart. *)
Theorem fallback_exactly_on_failure :
  forall (JSON_parse : jsstring -> option JsValue)
         (generateContent : AnalysisRequest -> AnalysisResponse)
         (code language : jsstring),
    analyzeCodeWithGemini JSON_parse generateContent code language
    = Resolved fallbackReport
    <-> analysis_call_fails JSON_parse
          (generateContent (analyzeCodeWithGemini_request code language)).
Proof.
  intros JSON_parse generateContent code language.
  rewrite <- try_fails_iff. unfold analyzeCodeWithGemini.
  destruct (analyzeCodeWithGemini_try JSON_parse generateContent code language)
    as [report|] eqn:T.
  - split; [|discriminate]. intros H. exfalso.
    assert (R : report = fallbackReport) by (injection H as ->; reflexivity).
    unfold analyzeCodeWithGemini_try in T.
    destruct (generateContent (analyzeCodeWithGemini_request code language))
      as [e|[[|x text]|]]; try discriminate T.
    destruct (JSON_parse (x :: text)) as [data|]; [|discriminate T].
    injection T as T. rewrite R in T.
    apply (f_equal (fun r => report_field r (js "externalReportUrls"))) in T.
    cbn [report_field] in T. rewrite get_set_same in T. discriminate T.
  - split; reflexivity.
Qed.

(** X11.  Nothing checks the shape of a reply: when its text parses to a
    value without own properties (null, a boolean, a number, an empty
    object, array or string) the promise resolves to a report that holds
    the two fields added locally and nothing else, so it has no scores
    and no [potentialBugs]. *)
Theorem shapeless_reply_gives_bare_report :
  forall (JSON_parse : jsstring -> option JsValue)
         (generateContent : AnalysisRequest -> AnalysisResponse)
         (code language : jsstring) (x : N) (text : jsstring) (data : JsValue),
    generateContent (analyzeCodeWithGemini_request code language)
    = Response (Some (x :: text)) ->
    JSON_parse (x :: text) = Some data ->
    spread data = [] ->
    analyzeCodeWithGemini JSON_parse generateContent code language
    = Resolved bareReport /\
    report_field bareReport (js "complexityScore") = None /\
    report_field bareReport (js "readabilityScore") = None /\
    report_field bareReport (js "maintainabilityIndex") = None /\
    report_field bareReport (js "potentialBugs") = None.
Proof.
  intros JSON_parse generateContent code language x text data G P S.
  split; [|repeat split].
  unfold analyzeCodeWithGemini, analyzeCodeWithGemini_try.
  rewrite G, P, S. reflexivity.
Qed.

(** The values that spread to nothing. *)
Lemma spread_nothing :
  spread JNull = [] /\ (forall b, spread (JBool b) = []) /\
  (forall q, spread (JNum q) = []) /\ spread (JObj []) = [] /\
  spread (JArr []) = [] /\ spread (JStr []) = [].
Proof. repeat split. Qed.

(** X12.  [analyzeCode] never shows its error notification: the promise
    of the adapter is never rejected, so on a source text that is not
    blank it stores a report, the fallback report when the call failed,
    reports the event to telemetry and ends with the loading flag down;
    on a blank source text it makes no call. *)
Theorem analyzeCode_always_stores_a_report :
  forall (JSON_parse : jsstring -> option JsValue)
         (generateContent : AnalysisRequest -> AnalysisResponse)
         (now code : jsstring) (language : CodeLanguage) (st : AnalysisState),
    let acts := analyzeCode JSON_parse generateContent now code language in
    analyze_notified acts = [] /\
    if is_blank code then acts = []
    else
      exists report,
        analyzeCodeWithGemini JSON_parse generateContent code
          (CodeLanguage_value language) = Resolved report /\
        acts = [ setIsAnalysisLoading true;
                 setCodeAnalysisReport (Some report);
                 trackEvent (js "code_analysis_complete");
                 setIsAnalysisLoading false ] /\
        fold_left reduce_analysis acts st
        = {| codeAnalysisReport := Some report; isAnalysisLoading := false |}.
Proof.
  intros JSON_parse generateContent now code language st acts. subst acts.
  unfold analyzeCode, is_blank. destruct (trim code) as [|x t].
  - split; reflexivity.
  - destruct (analyzeCodeWithGemini_resolves JSON_parse generateContent code
                (CodeLanguage_value language)) as [report R].
    rewrite R. split; [reflexivity|]. exists report. repeat split.
Qed.

(** X13.  The analysis request names the language in its prompt and ends
    with the source text, unchanged; it goes to the flash model and asks
    for JSON, whatever provider is selected for the generation. *)
Theorem analysis_request_embeds_inputs :
  forall code language : jsstring,
    let request := analyzeCodeWithGemini_request code language in
    includes (analysis_contents request) language = true /\
    includes (analysis_contents request) code = true /\
    endsWith (analysis_contents request) code = true /\
    analysis_model request = js "gemini-3-flash-preview" /\
    responseMimeType request = js "application/json".
Proof.
  intros code language request. subst request.
  unfold analyzeCodeWithGemini_request, analysis_contents,
    analyzeCodeWithGemini_prompt.
  split; [apply includes_spec; find_piece|].
  split; [apply includes_spec; find_piece|].
  split; [|split; reflexivity].
  unfold endsWith. apply startsWith_spec.
  rewrite !rev_app_distr. rewrite <- !app_assoc. eauto.
Qed.

(** ** More on the text transform *)

Lemma skipWord_run (w : jsstring) (c : N) (rest : jsstring) :
  forallb isWordChar w = true ->
  isWordChar c = false ->
  skipWord (w ++ c :: rest) = c :: rest.
Proof.
  intros W C. induction w as [|d w IH]; simpl.
  - rewrite C. reflexivity.
  - simpl in W. apply andb_true_iff in W. destruct W as [D W].
    rewrite D. apply IH. exact W.
Qed.

Lemma startsWith_app (p rest : jsstring) : startsWith (p ++ rest) p = true.
Proof. apply startsWith_spec. exists rest. reflexivity. Qed.

Lemma replaceTrailingFence_app (s : jsstring) :
  replaceTrailingFence (s ++ fence) = s.
Proof.
  unfold replaceTrailingFence.
  assert (E : endsWith (s ++ fence) fence = true)
    by (apply endsWith_spec; exists s; reflexivity).
  rewrite E, length_app. simpl length.
  replace (length s + 3 - 3) with (length s + 0) by lia.
  rewrite firstn_app_2. simpl. apply app_nil_r.
Qed.

(** X14.  A block between a fence with a language tag of word characters
    (or with no tag) on its own line and a closing fence at the very end
    is cleaned to the trimmed text between the two. *)
Theorem cleanCodeForDownload_fenced_block :
  forall tag body : jsstring,
    forallb isWordChar tag = true ->
    cleanCodeForDownload (fence ++ tag ++ nl ++ body ++ fence) = trim body.
Proof.
  intros tag body W. rewrite cleanCodeForDownload_closed.
  unfold replaceLeadingFence. rewrite startsWith_app.
  change (skipn 3 (fence ++ tag ++ nl ++ body ++ fence))
    with (tag ++ nl ++ body ++ fence).
  destruct tag as [|d tag].
  - change (skipLanguageTag ([] ++ nl ++ body ++ fence))
      with ((nl ++ body) ++ fence).
    rewrite replaceTrailingFence_app. reflexivity.
  - assert (D : isWordChar d = true).
    { simpl in W. apply andb_true_iff in W. apply W. }
    unfold skipLanguageTag. cbn [app]. rewrite D.
    change (d :: tag ++ nl ++ body ++ fence)
      with ((d :: tag) ++ 10%N :: body ++ fence).
    rewrite skipWord_run by (assumption || reflexivity).
    cbn [N.eqb Pos.eqb]. rewrite replaceTrailingFence_app. reflexivity.
Qed.

(** X15.  A language tag that holds a character outside letters, digits
    and the underscore, as in c++, or that is followed by a carriage
    return instead of a line feed, is not removed with the fence: only
    the three backticks go. *)
Theorem leading_fence_keeps_other_tags :
  forall (w : jsstring) (c : N) (rest : jsstring),
    forallb isWordChar w = true ->
    isWordChar c = false ->
    (c =? 10)%N = false ->
    replace leadingFence (fence ++ w ++ c :: rest) = w ++ c :: rest.
Proof.
  intros w c rest W C L. rewrite replace_leadingFence.
  unfold replaceLeadingFence. rewrite startsWith_app.
  change (skipn 3 (fence ++ w ++ c :: rest)) with (w ++ c :: rest).
  unfold skipLanguageTag. destruct w as [|d w]; cbn [app].
  - rewrite C. reflexivity.
  - assert (D : isWordChar d = true).
    { simpl in W. apply andb_true_iff in W. apply W. }
    rewrite D.
    change (d :: w ++ c :: rest) with ((d :: w) ++ c :: rest).
    rewrite skipWord_run by assumption. rewrite L. reflexivity.
Qed.

Lemma trimStart_suffix (s : jsstring) : exists pre, s = pre ++ trimStart s.
Proof.
  induction s as [|c s [pre IH]]; [exists []; reflexivity|]. simpl.
  destruct (isWhiteSpace c).
  - exists (c :: pre). simpl. rewrite <- IH. reflexivity.
  - exists []. reflexivity.
Qed.

Lemma trimEnd_prefix (s : jsstring) : exists post, s = trimEnd s ++ post.
Proof.
  destruct (trimStart_suffix (rev s)) as [pre H]. exists (rev pre).
  unfold trimEnd. rewrite <- rev_app_distr, <- H. symmetry.
  apply rev_involutive.
Qed.

Lemma skipWord_suffix (s : jsstring) : exists pre, s = pre ++ skipWord s.
Proof.
  induction s as [|c s [pre IH]]; [exists []; reflexivity|]. simpl.
  destruct (isWordChar c).
  - exists (c :: pre). simpl. rewrite <- IH. reflexivity.
  - exists []. reflexivity.
Qed.

Lemma skipLanguageTag_suffix (s : jsstring) :
  exists pre, s = pre ++ skipLanguageTag s.
Proof.
  unfold skipLanguageTag. destruct s as [|c s]; [exists []; reflexivity|].
  destruct (isWordChar c); [|exists []; reflexivity].
  destruct (skipWord_suffix (c :: s)) as [pre H].
  destruct (skipWord (c :: s)) as [|d rest]; [exists []; reflexivity|].
  destruct (d =? 10)%N; [|exists []; reflexivity].
  exists (pre ++ [d]). rewrite <- app_assoc. exact H.
Qed.

Lemma replaceLeadingFence_suffix (s : jsstring) :
  exists pre, s = pre ++ replaceLeadingFence s.
Proof.
  unfold replaceLeadingFence.
  destruct (startsWith s fence); [|exists []; reflexivity].
  destruct (skipLanguageTag_suffix (skipn 3 s)) as [pre H].
  exists (firstn 3 s ++ pre). rewrite <- app_assoc, <- H.
  symmetry. apply firstn_skipn.
Qed.

Lemma replaceTrailingFence_prefix (s : jsstring) :
  exists post, s = replaceTrailingFence s ++ post.
Proof.
  unfold replaceTrailingFence. destruct (endsWith s fence).
  - exists (skipn (length s - 3) s). symmetry. apply firstn_skipn.
  - exists []. symmetry. apply app_nil_r.
Qed.

(** X16.  The cleaned text is a piece of the input in one stretch, what
    is removed being removed at the two ends only; it is no longer than
    the input and has no white space at either end (trimming it again
    changes nothing). *)
Theorem cleanCodeForDownload_cuts_at_the_ends :
  forall code : jsstring,
    contains code (cleanCodeForDownload code) /\
    length (cleanCodeForDownload code) <= length code /\
    trim (cleanCodeForDownload code) = cleanCodeForDownload code.
Proof.
  intros code. rewrite cleanCodeForDownload_closed.
  split; [|split].
  - destruct (replaceLeadingFence_suffix code) as [p1 H1].
    destruct (replaceTrailingFence_prefix (replaceLeadingFence code))
      as [q1 H2].
    destruct (trimStart_suffix
                (replaceTrailingFence (replaceLeadingFence code)))
      as [p2 H3].
    destruct (trimEnd_prefix
                (trimStart (replaceTrailingFence (replaceLeadingFence code))))
      as [q2 H4].
    exists (p1 ++ p2), (q2 ++ q1). unfold trim.
    rewrite H1 at 1. rewrite H2 at 1. rewrite H3 at 1. rewrite H4 at 1.
    rewrite <- !app_assoc. reflexivity.
  - pose proof (trim_length
                  (replaceTrailingFence (replaceLeadingFence code))).
    pose proof (replaceTrailingFence_length (replaceLeadingFence code)).
    pose proof (replaceLeadingFence_length code). lia.
  - apply trim_idem.
Qed.

(** X17.  A text that neither starts nor ends with three backticks is
    only trimmed: fences inside it, and fences separated from its ends by
    white space, stay. *)
Theorem cleanCodeForDownload_without_end_fences :
  forall code : jsstring,
    startsWith code fence = false ->
    endsWith code fence = false ->
    cleanCodeForDownload code = trim code.
Proof.
  intros code A B. rewrite cleanCodeForDownload_closed.
  unfold replaceLeadingFence. rewrite A.
  unfold replaceTrailingFence. rewrite B. reflexivity.
Qed.

(** ** Notifications *)

Lemma filter_keeps_all (A : Type) (f : A -> bool) (l : list A) :
  forallb f l = true -> filter f l = l.
Proof.
  induction l as [|x l IH]; simpl; [reflexivity|].
  intros H. apply andb_true_iff in H. destruct H as [X H].
  rewrite X, IH by assumption. reflexivity.
Qed.

(** X18.  When the timer of a notification fires it removes every
    notification that carries its identifier and keeps the others in
    their order.  So a notification shown and expired leaves the list as
    it was when no older notification has the same identifier, and two
    notifications shown within the same millisecond, which get the same
    identifier, both go when the first timer fires. *)
Theorem notification_expiry :
  forall (nid : jsstring) (st : State),
    forallb (fun n => negb (jsstring_eqb (notification_id n) nid))
      (notifications st) = true ->
    (forall m ty,
        notifications
          (expireNotification nid (reduce st (showNotification nid m ty)))
        = notifications st) /\
    (forall m1 ty1 m2 ty2,
        notifications
          (expireNotification nid
             (run st [ showNotification nid m1 ty1;
                       showNotification nid m2 ty2 ]))
        = notifications st) /\
    (forall m ty other,
        jsstring_eqb other nid = false ->
        notifications
          (expireNotification other (reduce st (showNotification nid m ty)))
        = notifications (expireNotification other st) ++
          [ {| notification_id := nid; notification_message := m;
               notification_type := ty |} ]).
Proof.
  intros nid st H. split; [|split].
  - intros m ty. simpl. rewrite filter_app. simpl.
    rewrite jsstring_eqb_refl. simpl. rewrite app_nil_r.
    apply filter_keeps_all. exact H.
  - intros m1 ty1 m2 ty2. simpl. rewrite !filter_app. simpl.
    rewrite jsstring_eqb_refl. simpl. rewrite !app_nil_r.
    apply filter_keeps_all. exact H.
  - intros m ty other D. simpl. rewrite filter_app. simpl.
    assert (E : jsstring_eqb nid other = false).
    { destruct (jsstring_eqb nid other) eqn:E; [|reflexivity].
      apply jsstring_eqb_eq in E. subst other.
      rewrite jsstring_eqb_refl in D. discriminate D. }
    rewrite E. reflexivity.
Qed.

(** X19.  An operation that issues its request overwrites what the
    previous one left on display: the text, the error, the loading flag,
    the progress and with them the output pane after it do not depend on
    the state it started from. *)
Theorem operation_overwrites_display :
  forall gcs clock c (st1 st2 : State),
    is_blank (code c) = false ->
    let acts := handleGenerate gcs clock c in
    tests (run st1 acts) = tests (run st2 acts) /\
    error (run st1 acts) = error (run st2 acts) /\
    isLoading (run st1 acts) = isLoading (run st2 acts) /\
    generationProgress (run st1 acts) = generationProgress (run st2 acts) /\
    testsPane (run st1 acts) = testsPane (run st2 acts).
Proof.
  intros gcs clock c st1 st2 B acts. subst acts.
  rewrite !handleGenerate_final by assumption.
  repeat split.
Qed.

(** ** Instances of the further properties *)

Lemma loading_flag_sample :
  is_blank (code sample_captured) = false /\
  isLoading
    (run initialState
       (handleGenerate provider_failing sample_clock sample_captured))
  = false.
Proof.
  split; [reflexivity|].
  destruct (loading_flag_brackets_operation provider_failing sample_clock
              sample_captured initialState eq_refl) as (_ & F & _).
  exact F.
Defined.

Lemma successful_generation_sample :
  is_blank (code sample_captured) = false /\
  tests (run initialState
           (handleGenerate provider_streaming sample_clock sample_captured))
  = js "abc" /\
  generationProgress
    (run initialState
       (handleGenerate provider_streaming sample_clock sample_captured))
  = 100%Z.
Proof.
  split; [reflexivity|].
  destruct (successful_generation_outcome provider_streaming sample_clock
              sample_captured initialState eq_refl eq_refl)
    as (T & _ & _ & P & _).
  split; [exact T | exact P].
Defined.

(** A stream that ends without any text: the placeholder is back. *)
Lemma pane_after_operation_sample :
  is_blank (code sample_captured) = false /\
  testsPane
    (run initialState
       (handleGenerate provider_silent sample_clock sample_captured))
  = [ PanePlaceholder ] /\
  offersCopyDownload
    (run initialState
       (handleGenerate provider_silent sample_clock sample_captured))
  = None.
Proof.
  split; [reflexivity|].
  exact (pane_after_operation provider_silent sample_clock sample_captured
           initialState eq_refl).
Defined.

Lemma operation_overwrites_display_sample :
  is_blank (code sample_captured) = false /\
  error
    (run (run initialState
            (handleGenerate provider_failing sample_clock sample_captured))
       (handleGenerate provider_streaming sample_clock sample_captured))
  = error
      (run initialState
         (handleGenerate provider_streaming sample_clock sample_captured)).
Proof.
  split; [reflexivity|].
  destruct (operation_overwrites_display provider_streaming sample_clock
              sample_captured
              (run initialState
                 (handleGenerate provider_failing sample_clock sample_captured))
              initialState eq_refl) as (_ & E & _).
  exact E.
Defined.

Lemma request_ignores_unread_options_sample :
  testTypes (handleGenerate_options sample_captured)
  <> testTypes sample_options_other /\
  generateUnitTestsStream_request (code sample_captured)
    (handleGenerate_options sample_captured)
  = generateUnitTestsStream_request (code sample_captured)
      sample_options_other.
Proof.
  split; [discriminate|].
  apply (request_ignores_unread_options provider_streaming
           (code sample_captured) (handleGenerate_options sample_captured)
           sample_options_other
           eq_refl eq_refl eq_refl eq_refl eq_refl eq_refl eq_refl eq_refl
           eq_refl eq_refl eq_refl).
Defined.

Lemma shapeless_reply_sample :
  analyzeCodeWithGemini parse_null analysis_null (code sample_captured)
    (js "typescript")
  = Resolved bareReport.
Proof.
  apply (shapeless_reply_gives_bare_report parse_null analysis_null
           (code sample_captured) (js "typescript")
           110%N [117; 108; 108]%N JNull eq_refl eq_refl eq_refl).
Defined.

Lemma fenced_block_sample :
  forallb isWordChar (js "ts") = true /\
  cleanCodeForDownload (fence ++ js "ts" ++ nl ++ js "x" ++ fence)
  = trim (js "x").
Proof.
  split; [reflexivity|].
  apply (cleanCodeForDownload_fenced_block (js "ts") (js "x") eq_refl).
Defined.

(** The tag c++ stays. *)
Lemma leading_fence_sample :
  replace leadingFence (fence ++ js "c" ++ 43%N :: js "+" ++ nl ++ js "x")
  = js "c" ++ 43%N :: js "+" ++ nl ++ js "x".
Proof.
  apply (leading_fence_keeps_other_tags (js "c") 43%N
           (js "+" ++ nl ++ js "x") eq_refl eq_refl eq_refl).
Defined.

(** A fence inside the text stays. *)
Lemma without_end_fences_sample :
  cleanCodeForDownload (js " a" ++ fence ++ js "b ")
  = trim (js " a" ++ fence ++ js "b ").
Proof.
  apply (cleanCodeForDownload_without_end_fences
           (js " a" ++ fence ++ js "b ") eq_refl eq_refl).
Defined.

Lemma notification_expiry_sample :
  notifications
    (expireNotification (js "1700000000001")
       (run initialState
          [ showNotification (js "1700000000001") (js "first") NotifyInfo;
            showNotification (js "1700000000001") (js "second") NotifyError ]))
  = [].
Proof.
  destruct (notification_expiry (js "1700000000001") initialState eq_refl)
    as (_ & H & _).
  apply (H (js "first") NotifyInfo (js "second") NotifyError).
Defined.
